(** * The sneaker-release refresh cache of [sneaker_releases.py]

    A shallow embedding of the module's cache state, its file store, the
    paginated crawl, the background refresh task and the query layer,
    followed by the properties stated about them.

    Python values that travel through the JSON file are modelled by the
    type [json]; exceptions are values of [exn]; functions that read or
    write the module-level [_state] dictionary and the file run in the
    monad [M], in which a raised exception keeps every write made before
    it (as in Python). *)

From Stdlib Require Import ZArith List String Ascii Bool Lia.
From Stdlib Require Import Permutation Sorted.
Import ListNotations.

Set Warnings "-register-all".
Local Open Scope string_scope.
Local Open Scope Z_scope.

(** ** Exceptions and results *)

Inductive exn : Type :=
| TypeError
| AttributeError
| ValueError
| JSONDecodeError        (* subclass of ValueError *)
| UnicodeDecodeError     (* subclass of ValueError *)
| OSError                (* IOError is an alias of OSError *)
| OverflowError
| RuntimeError.

Inductive result (A : Type) : Type :=
| Ok (a : A)
| Raise (e : exn).
Arguments Ok {A} a.
Arguments Raise {A} e.

Definition is_ok {A} (r : result A) : bool :=
  match r with Ok _ => true | Raise _ => false end.

(** The pure error monad, for code that touches no shared state. *)
Module Res.
Definition bind {A B} (r : result A) (k : A -> result B) : result B :=
  match r with
  | Ok a => k a
  | Raise e => Raise e
  end.
End Res.

Declare Scope res_scope.
Delimit Scope res_scope with res.
Notation "x <- c ;; k" := (Res.bind c (fun x => k))
  (at level 61, c at next level, right associativity) : res_scope.

(** ** JSON values, as [json.load] builds them

    Numbers are kept to the integers, strings are their UTF-8 bytes
    (whose lexicographic order is that of the code points), and an
    object is the association list of its members in insertion order. *)

Inductive json : Type :=
| JNull
| JBool (b : bool)
| JNum (n : Z)
| JStr (s : string)
| JArr (l : list json)
| JObj (kv : list (string * json)).

(** Python truth value of a decoded JSON value. *)
Definition truthy (v : json) : bool :=
  match v with
  | JNull => false
  | JBool b => b
  | JNum n => negb (n =? 0)
  | JStr s => negb (String.eqb s "")
  | JArr l => match l with [] => false | _ => true end
  | JObj kv => match kv with [] => false | _ => true end
  end.

Fixpoint assoc (k : string) (kv : list (string * json)) : option json :=
  match kv with
  | [] => None
  | (k', v) :: rest => if String.eqb k k' then Some v else assoc k rest
  end.

(** [v.get(k, default)]: only a dict has the method. *)
Definition py_get (v : json) (k : string) (default : json) : result json :=
  match v with
  | JObj kv => Ok (match assoc k kv with Some x => x | None => default end)
  | _ => Raise AttributeError
  end.

(** [len(v)]. *)
Definition py_len (v : json) : result Z :=
  match v with
  | JStr s => Ok (Z.of_nat (String.length s))
  | JArr l => Ok (Z.of_nat (List.length l))
  | JObj kv => Ok (Z.of_nat (List.length kv))
  | _ => Raise TypeError
  end.

Fixpoint chars (s : string) : list json :=
  match s with
  | EmptyString => []
  | String c s' => JStr (String c EmptyString) :: chars s'
  end.

(** [for x in v]: a list yields its elements, a string its characters,
    a dict its keys; nothing else is iterable. *)
Definition py_iter (v : json) : result (list json) :=
  match v with
  | JArr l => Ok l
  | JStr s => Ok (chars s)
  | JObj kv => Ok (map (fun p => JStr (fst p)) kv)
  | _ => Raise TypeError
  end.

Definition is_object (v : json) : bool :=
  match v with JObj _ => true | _ => false end.

(** [v or []] *)
Definition or_empty (v : json) : json :=
  if truthy v then v else JArr [].

(** ** Naive datetimes *)

Record datetime : Type := mkDT {
  year : Z; month : Z; day : Z;
  hour : Z; minute : Z; second : Z; microsecond : Z
}.

Definition is_leap (y : Z) : bool :=
  (y mod 4 =? 0) && (negb (y mod 100 =? 0) || (y mod 400 =? 0)).

Definition days_in_month (y m : Z) : Z :=
  if m =? 2 then (if is_leap y then 29 else 28)
  else if (m =? 4) || (m =? 6) || (m =? 9) || (m =? 11) then 30
  else 31.

Definition days_before_year (y : Z) : Z :=
  let y1 := y - 1 in
  y1 * 365 + y1 / 4 - y1 / 100 + y1 / 400.

Definition days_before_month (y m : Z) : Z :=
  nth (Z.to_nat m) [0; 0; 31; 59; 90; 120; 151; 181; 212; 243; 273; 304; 334] 0
  + (if (2 <? m) && is_leap y then 1 else 0).

(** [date.toordinal()]: 0001-01-01 is day 1. *)
Definition ymd2ord (y m d : Z) : Z :=
  days_before_year y + days_before_month y m + d.

Definition MAXORDINAL : Z := 3652059.   (* date(9999, 12, 31).toordinal() *)

Definition valid_datetime (t : datetime) : bool :=
  (1 <=? year t) && (year t <=? 9999) &&
  (1 <=? month t) && (month t <=? 12) &&
  (1 <=? day t) && (day t <=? days_in_month (year t) (month t)) &&
  (0 <=? hour t) && (hour t <? 24) &&
  (0 <=? minute t) && (minute t <? 60) &&
  (0 <=? second t) && (second t <? 60) &&
  (0 <=? microsecond t) && (microsecond t <? 1000000).

(** A calendar date is its proleptic Gregorian ordinal. *)
Definition date := Z.

(** [t.date()] *)
Definition date_of (t : datetime) : date :=
  ymd2ord (year t) (month t) (day t).

(** Microseconds since 0001-01-01T00:00:00; [a - b] on datetimes is the
    difference of these, a [timedelta] counted in microseconds. *)
Definition to_micros (t : datetime) : Z :=
  (((date_of t - 1) * 24 + hour t) * 60 + minute t) * 60 * 1000000
  + second t * 1000000 + microsecond t.

Definition timedelta := Z.

Definition dt_sub (a b : datetime) : timedelta := to_micros a - to_micros b.

Definition timedelta_hours (h : Z) : timedelta := h * 3600 * 1000000.

(** *** ISO-8601 text of a naive datetime

    [isoformat] is [datetime.isoformat()]:
    [YYYY-MM-DDTHH:MM:SS], followed by [.ffffff] when the microsecond
    field is not zero.  [parse_isoformat] reads the forms without a UTC
    offset, [YYYY-MM-DD[*HH[:MM[:SS[.fff[fff]]]]]], when their fields
    make a valid datetime. *)

Definition digit_char (d : Z) : ascii := ascii_of_nat (48 + Z.to_nat d).

Definition digit_val (c : ascii) : option Z :=
  let n := Z.of_nat (nat_of_ascii c) in
  if (48 <=? n) && (n <=? 57) then Some (n - 48) else None.

(** [w] decimal digits of [n], most significant first. *)
Fixpoint zpad (w : nat) (n : Z) : string :=
  match w with
  | O => ""
  | S w' => String (digit_char (n / 10 ^ Z.of_nat w')) (zpad w' (n mod 10 ^ Z.of_nat w'))
  end.

(** Read exactly [w] ASCII digits. *)
Fixpoint parse_digits_from (w : nat) (acc : Z) (s : string) : option (Z * string) :=
  match w with
  | O => Some (acc, s)
  | S w' =>
      match s with
      | String c s' =>
          match digit_val c with
          | Some d => parse_digits_from w' (acc * 10 + d) s'
          | None => None
          end
      | EmptyString => None
      end
  end.

Definition parse_digits (w : nat) (s : string) : option (Z * string) :=
  parse_digits_from w 0 s.

Definition expect (c : ascii) (s : string) : option string :=
  match s with
  | String c' s' => if Ascii.eqb c c' then Some s' else None
  | EmptyString => None
  end.

Definition isoformat (t : datetime) : string :=
  zpad 4 (year t) ++ "-" ++ zpad 2 (month t) ++ "-" ++ zpad 2 (day t) ++ "T"
  ++ zpad 2 (hour t) ++ ":" ++ zpad 2 (minute t) ++ ":" ++ zpad 2 (second t)
  ++ (if microsecond t =? 0 then "" else "." ++ zpad 6 (microsecond t)).

Definition parse_fraction (s : string) : option Z :=
  match String.length s with
  | 6%nat => match parse_digits 6 s with Some (us, _) => Some us | None => None end
  | 3%nat => match parse_digits 3 s with Some (ms, _) => Some (ms * 1000) | None => None end
  | _ => None
  end.

(** [HH[:MM[:SS[.fff[fff]]]]] *)
Definition parse_time (s : string) : option (Z * Z * Z * Z) :=
  match parse_digits 2 s with
  | None => None
  | Some (h, "") => Some (h, 0, 0, 0)
  | Some (h, s1) =>
      match expect ":" s1 with
      | None => None
      | Some s2 =>
          match parse_digits 2 s2 with
          | None => None
          | Some (mi, "") => Some (h, mi, 0, 0)
          | Some (mi, s3) =>
              match expect ":" s3 with
              | None => None
              | Some s4 =>
                  match parse_digits 2 s4 with
                  | None => None
                  | Some (se, "") => Some (h, mi, se, 0)
                  | Some (se, s5) =>
                      match expect "." s5 with
                      | None => None
                      | Some s6 =>
                          match parse_fraction s6 with
                          | Some us => Some (h, mi, se, us)
                          | None => None
                          end
                      end
                  end
              end
          end
      end
  end.

(** [YYYY-MM-DD] and what follows it. *)
Definition parse_date_part (s : string) : option (Z * Z * Z * string) :=
  match parse_digits 4 s with
  | None => None
  | Some (y, s1) =>
      match expect "-" s1 with
      | None => None
      | Some s2 =>
          match parse_digits 2 s2 with
          | None => None
          | Some (m, s3) =>
              match expect "-" s3 with
              | None => None
              | Some s4 =>
                  match parse_digits 2 s4 with
                  | None => None
                  | Some (d, s5) => Some (y, m, d, s5)
                  end
              end
          end
      end
  end.

Definition checked (t : datetime) : option datetime :=
  if valid_datetime t then Some t else None.

Definition parse_isoformat (s : string) : option datetime :=
  match parse_date_part s with
  | None => None
  | Some (y, m, d, "") => checked (mkDT y m d 0 0 0 0)
  | Some (y, m, d, String _sep tstr) =>
      match parse_time tstr with
      | None => None
      | Some (h, mi, se, us) => checked (mkDT y m d h mi se us)
      end
  end.

(** A [datetime] object: naive, or aware of a UTC offset.  The fields of
    an aware one are never read: the only operation applied to a stored
    timestamp is its subtraction from [datetime.now()], which is naive,
    and subtracting an aware datetime from a naive one is a
    [TypeError]. *)
Inductive timestamp : Type :=
| Naive (t : datetime)
| Aware.

(** [datetime.now() - t] *)
Definition sub_now (now : datetime) (t : timestamp) : result timedelta :=
  match t with
  | Naive t' => Ok (dt_sub now t')
  | Aware => Raise TypeError
  end.


(** ** Exception classes and [try] *)

Inductive exn_class : Type :=
| ExceptionC | ValueErrorC | JSONDecodeErrorC | IOErrorC.

Definition isinstance (e : exn) (c : exn_class) : bool :=
  match c, e with
  | ExceptionC, _ => true
  | ValueErrorC, (ValueError | JSONDecodeError | UnicodeDecodeError) => true
  | JSONDecodeErrorC, JSONDecodeError => true
  | IOErrorC, OSError => true
  | _, _ => false
  end.

Module ResTry.
(** [try: body / except classes: handler] *)
Definition try_except {A} (body : result A) (classes : list exn_class)
    (handler : exn -> result A) : result A :=
  match body with
  | Ok a => Ok a
  | Raise e => if existsb (isinstance e) classes then handler e else Raise e
  end.
End ResTry.

(** ** Configuration constants *)

Definition FETCH_INTERVAL_HOURS : Z := 6.
Definition MAX_PAGES : nat := 10.
Definition DATE_FORMATS : list string :=
  ["%B %d, %Y"; "%b %d, %Y"; "%Y-%m-%d"; "%m/%d/%Y"; "%d/%m/%Y"].

(** ** The module state [_state], the file and the world *)

Record State : Type := mkState {
  releases : json;                      (* [JNull] is [None] *)
  last_fetch_time : option timestamp;
  fetch_lock : bool;                    (* [true]: the lock is held *)
  fetch_in_progress : bool;
  first_run : bool
}.

Definition initial_state : State := mkState JNull None false false true.

(** What opening and decoding [sneaker_releases.json] does. *)
Inductive FileState : Type :=
| Missing                 (* [os.path.exists] is false *)
| Unreadable              (* [open] or [read] raises [OSError] *)
| Undecodable             (* the bytes are not UTF-8: [UnicodeDecodeError] *)
| NotJson                 (* [json.load] raises [JSONDecodeError] *)
| Document (data : json). (* [json.load] returns [data] *)

Record World : Type := mkWorld {
  state : State;
  file : FileState;
  started : nat      (* background threads started and not yet run *)
}.

(** ** The monad of stateful, fallible code *)

Definition M (A : Type) : Type := World -> World * result A.

Module MM.
Definition ret {A} (a : A) : M A := fun w => (w, Ok a).
Definition raise {A} (e : exn) : M A := fun w => (w, Raise e).
Definition bind {A B} (c : M A) (k : A -> M B) : M B :=
  fun w => match c w with
           | (w', Ok a) => k a w'
           | (w', Raise e) => (w', Raise e)
           end.
Definition lift {A} (r : result A) : M A := fun w => (w, r).

(** [try: body / except Exception: handler] *)
Definition try_except {A} (body : M A) (handler : exn -> M A) : M A :=
  fun w => match body w with
           | (w', Ok a) => (w', Ok a)
           | (w', Raise e) => handler e w'
           end.

(** [try: body / finally: fin] *)
Definition try_finally {A} (body : M A) (fin : M unit) : M A :=
  fun w => match body w with
           | (w', r) =>
               match fin w' with
               | (w'', Ok _) => (w'', r)
               | (w'', Raise e) => (w'', Raise e)
               end
           end.

Definition get_state : M State := fun w => (w, Ok (state w)).
Definition modify_state (f : State -> State) : M unit :=
  fun w => (mkWorld (f (state w)) (file w) (started w), Ok tt).
Definition read_file : M FileState := fun w => (w, Ok (file w)).
Definition write_file (f : FileState) : M unit :=
  fun w => (mkWorld (state w) f (started w), Ok tt).
(** [thread.start()] *)
Definition thread_start : M unit :=
  fun w => (mkWorld (state w) (file w) (S (started w)), Ok tt).
End MM.

Declare Scope m_scope.
Delimit Scope m_scope with M.
Notation "x <- c ;; k" := (MM.bind c (fun x => k))
  (at level 61, c at next level, right associativity) : m_scope.
Notation "c ;;; k" := (MM.bind c (fun _ => k))
  (at level 61, right associativity) : m_scope.

Definition set_releases (v : json) (s : State) : State :=
  mkState v (last_fetch_time s) (fetch_lock s) (fetch_in_progress s) (first_run s).
Definition set_last_fetch_time (t : option timestamp) (s : State) : State :=
  mkState (releases s) t (fetch_lock s) (fetch_in_progress s) (first_run s).
Definition set_fetch_lock (b : bool) (s : State) : State :=
  mkState (releases s) (last_fetch_time s) b (fetch_in_progress s) (first_run s).
Definition set_fetch_in_progress (b : bool) (s : State) : State :=
  mkState (releases s) (last_fetch_time s) (fetch_lock s) b (first_run s).
Definition set_first_run (b : bool) (s : State) : State :=
  mkState (releases s) (last_fetch_time s) (fetch_lock s) (fetch_in_progress s) b.

(** [lock.acquire(blocking=False)]: takes the lock when it is free and
    tells whether it did. *)
Definition lock_acquire : M bool :=
  fun w =>
    if fetch_lock (state w) then (w, Ok false)
    else (mkWorld (set_fetch_lock true (state w)) (file w) (started w), Ok true).

(** [lock.release()]: releasing a free lock is a [RuntimeError]. *)
Definition lock_release : M unit :=
  fun w =>
    if fetch_lock (state w)
    then (mkWorld (set_fetch_lock false (state w)) (file w) (started w), Ok tt)
    else (w, Raise RuntimeError).

(** ** The library functions taken as parameters *)

Section Library.

(** [datetime.fromisoformat] on a text that is not one of the forms
    read by [parse_isoformat]: what it accepts beyond them, offsets
    included, depends on the version of the library. *)
Variable fromisoformat_other : string -> result timestamp.

(** [datetime.strptime(s, fmt).date()]; [None] is its [ValueError]. *)
Variable strptime : string -> string -> option date.

Definition fromisoformat (s : string) : result timestamp :=
  match parse_isoformat s with
  | Some t => Ok (Naive t)
  | None => fromisoformat_other s
  end.

(** ** [load_sneaker_releases_from_file]

    returns [(releases, last_fetch_time)]; [(None, None)] is
    [(JNull, None)].  [now] is the clock reading taken when the stored
    timestamp does not parse. *)

Definition read_json (f : FileState) : result json :=
  match f with
  | Missing => Raise OSError
  | Unreadable => Raise OSError
  | Undecodable => Raise UnicodeDecodeError
  | NotJson => Raise JSONDecodeError
  | Document data => Ok data
  end.

Definition exists_file (f : FileState) : bool :=
  match f with Missing => false | _ => true end.

Definition parse_last_updated (now : datetime) (last_updated : json)
  : result (option timestamp) :=
  if truthy last_updated then
    ResTry.try_except
      (match last_updated with
       | JStr s => (t <- fromisoformat s ;; Ok (Some t))%res
       | _ => Raise TypeError          (* argument must be str *)
       end)
      [ValueErrorC]
      (fun _ => Ok (Some (Naive now)))
  else Ok None.

Definition load_sneaker_releases_from_file (now : datetime) (f : FileState)
  : result (json * option timestamp) :=
  if negb (exists_file f) then Ok (JNull, None)
  else
    ResTry.try_except
      (data <- read_json f ;;
       releases <- py_get data "releases" (JArr []) ;;
       last_updated <- py_get data "last_updated" JNull ;;
       last_fetch_time <- parse_last_updated now last_updated ;;
       _ <- py_len releases ;;          (* the log line evaluates len(releases) *)
       Ok (releases, last_fetch_time))%res
      [JSONDecodeErrorC; IOErrorC]
      (fun _ => Ok (JNull, None)).

(** The prologue shared by both public operations:
    [if not _state['releases']: ... load ...]. *)
Definition load_if_empty (now : datetime) : M unit :=
  (s <- MM.get_state ;;
   if negb (truthy (releases s)) then
     f <- MM.read_file ;;
     r <- MM.lift (load_sneaker_releases_from_file now f) ;;
     if truthy (fst r) then
       MM.modify_state (set_releases (fst r)) ;;;
       MM.modify_state (set_last_fetch_time (snd r))
     else MM.ret tt
   else MM.ret tt)%M.

(** ** [should_fetch_new_data] *)

Definition should_fetch_new_data (now : datetime) : M bool :=
  (s <- MM.get_state ;;
   if first_run s then
     MM.modify_state (set_first_run false) ;;;
     MM.ret true
   else
     match last_fetch_time s with
     | None => MM.ret true
     | Some t =>
         time_since_last_fetch <- MM.lift (sub_now now t) ;;
         MM.ret (timedelta_hours FETCH_INTERVAL_HOURS <? time_since_last_fetch)
     end)%M.

(** ** Release items and the page adapter *)

(** The dictionary built by [parse_sneaker_item]. *)
Record Item : Type := mkItem {
  name : option string;
  release_date : option string;
  price : option string;
  sku : option string;
  link : option string;
  is_trending : bool
}.

Definition opt_str (o : option string) : json :=
  match o with Some s => JStr s | None => JNull end.

Definition item_json (i : Item) : json :=
  JObj [("name", opt_str (name i));
        ("release_date", opt_str (release_date i));
        ("price", opt_str (price i));
        ("sku", opt_str (sku i));
        ("link", opt_str (link i));
        ("is_trending", JBool (is_trending i))].

(** What the HTML queries of [parse_sneaker_item] find in one raffle
    item: the [href] of its anchor ([None] when there is no anchor), the
    stripped texts of the name and date elements, the stripped pieces of
    the price line split at the separator text of the source (the
    characters the source file holds at that place, whatever they were
    meant to be), and whether the "Trending now" marker is present.

    An anchor that has no [href] attribute is not an [Elem]: on it
    [link_elem['href']] raises [KeyError], [parse_sneaker_item] returns
    nothing, and the page that holds it is the response [ItemRaises]
    below. *)
Record Elem : Type := mkElem {
  href : option string;
  name_text : option string;
  date_text : option string;
  price_parts : option (list string);
  trending_marker : bool
}.

Definition parse_sneaker_item (e : Elem) : Item :=
  let parts := match price_parts e with Some ps => ps | None => [] end in
  mkItem
    (name_text e)
    (date_text e)
    (match parts with p :: _ => Some p | [] => None end)
    (match parts with _ :: q :: _ => Some q | _ => None end)
    (match href e with
     | Some l => if negb (String.eqb l "")
                 then Some ("https://www.soleretriever.com" ++ l) else None
     | None => None
     end)
    (trending_marker e).

(** The upstream site, as [scraper.get] sees one page.  [ItemRaises]
    is a page answered with status 200 whose raffle items include one on
    which [parse_sneaker_item] raises. *)
Inductive response : Type :=
| RequestFails                                    (* [scraper.get] raises *)
| Status (code : Z) (raffle_items : list Elem)
| ItemRaises.

(** Every exception raised inside the [try], by the request or by the
    parse of an item, is caught and gives the empty page. *)
Definition fetch_page (site : nat -> response) (page_num : nat) : list Item :=
  match site page_num with
  | RequestFails => []
  | ItemRaises => []
  | Status code raffle_items =>
      if code =? 404 then []
      else if code =? 200 then
        match raffle_items with
        | [] => []
        | _ => map parse_sneaker_item raffle_items
        end
      else []
  end.

(** ** The worker pool

    [executor.map(f, xs)] submits one task per element and yields the
    results in submission order.  Tasks finish in an order the pool
    decides: [choices] picks, at each completion, which of the pending
    tasks finishes next (the pick is taken modulo the number of pending
    tasks, so every list of picks is a completion order). *)

Fixpoint remove_nth {A} (k : nat) (l : list A) : list A :=
  match l, k with
  | [], _ => []
  | _ :: t, O => t
  | x :: t, S k' => x :: remove_nth k' t
  end.

Fixpoint run_pool {A B} (f : A -> B) (choices : list nat)
    (pending : list (nat * A)) (slots : list (nat * B)) (fuel : nat)
  : list (nat * B) :=
  match fuel with
  | O => slots
  | S fuel' =>
      let k := Nat.modulo (hd O choices) (List.length pending) in
      match nth_error pending k with
      | None => slots
      | Some (i, a) =>
          run_pool f (tl choices) (remove_nth k pending) ((i, f a) :: slots) fuel'
      end
  end.

Fixpoint slot {B} (i : nat) (slots : list (nat * B)) : list B :=
  match slots with
  | [] => []
  | (j, b) :: rest => if Nat.eqb i j then [b] else slot i rest
  end.

Definition executor_map {A B} (choices : list nat) (f : A -> B) (xs : list A)
  : list B :=
  let n := List.length xs in
  let slots := run_pool f choices (combine (seq 0 n) xs) [] n in
  flat_map (fun i => slot i slots) (seq 0 n).

(** ** [list.sort(key=lambda x: x.get('release_date', ''))]

    Every item carries the key [release_date], so the default [''] is
    never used and the sort key is the stored value: a string or [None].
    The sort is stable and orders keys with [<], which raises
    [TypeError] as soon as one of its operands is [None].

    The library's algorithm is written here as a stable insertion sort.
    Two facts make the choice of algorithm immaterial: on string keys
    the result of a stable sort is unique (lemma [stable_sort_unique]),
    and among two or more items every item takes part in a comparison,
    so a [None] key always raises; the list left behind by a raising
    sort is never read, the handler returns a new empty list. *)

Definition key_lt (a b : option string) : result bool :=
  match a, b with
  | Some x, Some y => Ok (String.ltb x y)
  | _, _ => Raise TypeError
  end.

Fixpoint insert_sorted (x : Item) (l : list Item) : result (list Item) :=
  match l with
  | [] => Ok [x]
  | y :: l' =>
      (b <- key_lt (release_date y) (release_date x) ;;
       if b then (r <- insert_sorted x l' ;; Ok (y :: r))
       else Ok (x :: y :: l'))%res
  end.

Fixpoint sort_by_release_date (l : list Item) : result (list Item) :=
  match l with
  | [] => Ok []
  | x :: l' => (s <- sort_by_release_date l' ;; insert_sorted x s)%res
  end.

Definition has_date (i : Item) : bool :=
  match release_date i with Some _ => true | None => false end.

(** [a] may stand before [b] in ascending order of the raw date string. *)
Definition date_le (a b : Item) : Prop :=
  match release_date a, release_date b with
  | Some x, Some y => String.leb x y = true
  | _, _ => False
  end.

Definition dated (k : string) (i : Item) : bool :=
  match release_date i with Some s => String.eqb s k | None => false end.

(** ** [fetch_sneaker_data] *)

(** The [for page_results in results] loop with its [break]. *)
Fixpoint extend_until_empty (results : list (list Item)) : list Item :=
  match results with
  | [] => []
  | page_results :: rest =>
      match page_results with
      | [] => []
      | _ => (page_results ++ extend_until_empty rest)%list
      end
  end.

(** The number of pages before the first empty one. *)
Fixpoint first_empty (pages : list (list Item)) : nat :=
  match pages with
  | [] => O
  | [] :: _ => O
  | _ :: rest => S (first_empty rest)
  end.

(** What the crawl meets outside the process. *)
Record Crawl : Type := mkCrawl {
  create_scraper : result unit;   (* [cloudscraper.create_scraper] *)
  site : nat -> response;
  completion : list nat           (* completion order in the pool *)
}.

(** The pages of the site in index order, as the adapter returns them. *)
Definition pages_of (c : Crawl) : list (list Item) :=
  map (fetch_page (site c)) (seq 1 MAX_PAGES).

Definition fetch_sneaker_data (c : Crawl) : result (list Item) :=
  (_ <- create_scraper c ;;
   ResTry.try_except
     (let results :=
        executor_map (completion c) (fetch_page (site c)) (seq 1 MAX_PAGES) in
      let all_sneakers := extend_until_empty results in
      match all_sneakers with
      | [] => Ok []
      | _ => sort_by_release_date all_sneakers
      end)
     [ExceptionC]
     (fun _ => Ok []))%res.

(** A site whose pages hold 5, 3, 0 and 5 items; the second item of
    page 2 has no date element. *)
Definition elem_dated (d : string) : Elem :=
  mkElem (Some "/sneaker") (Some "Sneaker") (Some d) (Some ["$100"; "SKU-1"]) true.

Definition elem_undated : Elem :=
  mkElem (Some "/sneaker") (Some "Sneaker") None (Some ["$100"; "SKU-1"]) true.

Definition site_5_3_0_5 (page_num : nat) : response :=
  match page_num with
  | 1%nat => Status 200 (map elem_dated
               ["June 1, 2024"; "June 2, 2024"; "June 3, 2024";
                "June 4, 2024"; "June 5, 2024"])
  | 2%nat => Status 200 [elem_dated "June 6, 2024"; elem_undated;
                         elem_dated "June 8, 2024"]
  | 3%nat => Status 200 []
  | 4%nat => Status 200 (map elem_dated
               ["July 1, 2024"; "July 2, 2024"; "July 3, 2024";
                "July 4, 2024"; "July 5, 2024"])
  | _ => Status 404 []
  end.

(** ** [save_sneaker_data]

    The text of the file is not modelled: a completed [json.dump] leaves
    a file from which [json.load] reads the same value back. *)

Inductive write_outcome : Type :=
| WriteOk        (* the file now holds the new document *)
| OpenFails      (* [open(..., 'w')] raises; the file is untouched *)
| WriteFails.    (* [json.dump] fails part-way; the file is truncated *)

Definition document (rs : list Item) (now : datetime) : json :=
  JObj [("total_releases", JNum (Z.of_nat (List.length rs)));
        ("trending_releases",
           JNum (Z.of_nat (List.length (filter is_trending rs))));
        ("releases", JArr (map item_json rs));
        ("last_updated", JStr (isoformat now))].

Definition save_sneaker_data (rs : list Item) (now : datetime)
    (wr : write_outcome) : M bool :=
  MM.try_except
    (let data := document rs now in
     match wr with
     | WriteOk => MM.write_file (Document data) ;;; MM.ret true
     | OpenFails => MM.raise OSError
     | WriteFails => MM.write_file NotJson ;;; MM.raise OSError
     end)%M
    (fun _ => MM.ret false).

(** [s.get('is_trending', False)] as a test, on a stored item. *)
Definition json_trending (v : json) : bool :=
  match py_get v "is_trending" (JBool false) with
  | Ok t => truthy t
  | Raise _ => false
  end.

(** ** [get_sneaker_releases] and its background task *)

(** The test of the cached return,
    [not force_refresh and not first_run and releases and
     last_fetch_time and (now - last_fetch_time) < timedelta(hours=...)],
    evaluated left to right. *)
Definition serve_cached (force_refresh : bool) (now : datetime) (s : State)
  : result bool :=
  if negb force_refresh && negb (first_run s) && truthy (releases s) then
    match last_fetch_time s with
    | None => Ok false
    | Some t =>
        (age <- sub_now now t ;;
         Ok (age <? timedelta_hours FETCH_INTERVAL_HOURS))%res
    end
  else Ok false.

(** The held timestamp is absent, or its age has reached the window. *)
Definition aged (now : datetime) (s : State) : Prop :=
  match last_fetch_time s with
  | Some (Naive t) => timedelta_hours FETCH_INTERVAL_HOURS <= dt_sub now t
  | Some Aware => False
  | None => True
  end.

(** [now_load] is the clock reading inside the load, [now] the one of
    the freshness test.  The value returned is the function's return
    value; a started thread shows in [started]. *)
Definition get_sneaker_releases (force_refresh : bool) (now_load now : datetime)
  : M json :=
  (load_if_empty now_load ;;;
   s <- MM.get_state ;;
   cached <- MM.lift (serve_cached force_refresh now s) ;;
   if cached : bool then MM.ret (releases s)
   else if fetch_in_progress s then MM.ret (or_empty (releases s))
   else
     acquired <- lock_acquire ;;
     if negb acquired then MM.ret (or_empty (releases s))
     else
       MM.thread_start ;;;
       MM.ret (or_empty (releases s)))%M.

(** What one run of the background task meets. *)
Record Refresh : Type := mkRefresh {
  crawl : Crawl;
  write : write_outcome;
  now_save : datetime;     (* clock reading in [save_sneaker_data] *)
  now_swap : datetime      (* clock reading at the swap *)
}.

(** The [try] block of the task. *)
Definition fetch_body (r : Refresh) : M unit :=
  (MM.modify_state (set_fetch_in_progress true) ;;;
   all_sneakers <- MM.lift (fetch_sneaker_data (crawl r)) ;;
   match all_sneakers with
   | [] => MM.ret tt
   | _ =>
       saved <- save_sneaker_data all_sneakers (now_save r) (write r) ;;
       if saved then
         MM.modify_state (set_releases (JArr (map item_json all_sneakers))) ;;;
         MM.modify_state (set_last_fetch_time (Some (Naive (now_swap r))))
       else MM.ret tt
   end)%M.

(** [try: body / except Exception: log / finally: clear the flag and
    release the lock]. *)
Definition guarded (body : M unit) : M unit :=
  MM.try_finally
    (MM.try_except body (fun _ => MM.ret tt))
    (MM.modify_state (set_fetch_in_progress false) ;;; lock_release)%M.

Definition fetch_thread (r : Refresh) : M unit := guarded (fetch_body r).

(** The task runs when the scheduler picks it. *)
Definition run_thread (r : Refresh) : M unit :=
  fun w =>
    fetch_thread r (mkWorld (state w) (file w) (Nat.pred (started w))).

(** ** The query layer *)

(** [timedelta(days=days)] holds at most 999999999 days, and a date plus
    a timedelta must stay within [date.min .. date.max]. *)
Definition date_add_days (d : date) (days : Z) : result date :=
  if Z.abs days <=? 999999999 then
    let o := d + days in
    if (0 <? o) && (o <=? MAXORDINAL) then Ok o else Raise OverflowError
  else Raise OverflowError.

Fixpoint first_format (s : string) (fmts : list string) : option date :=
  match fmts with
  | [] => None
  | fmt :: rest =>
      match strptime s fmt with
      | Some d => Some d
      | None => first_format s rest
      end
  end.

(** [parse_date] receives whatever the item holds under
    [release_date].  The [lru_cache] wrapper needs a hashable
    argument, and it does not change the result for the others. *)
Definition parse_date (date_str : json) : result (option date) :=
  match date_str with
  | JArr _ | JObj _ => Raise TypeError           (* unhashable *)
  | _ =>
      if negb (truthy date_str) then Ok None
      else
        match date_str with
        | JStr s => Ok (first_format s DATE_FORMATS)
        | _ => Raise TypeError                   (* strptime needs a str *)
        end
  end.

(** One turn of the filter loop: [true] when the release is appended. *)
Definition upcoming_step (today end_date : date) (release : json)
  : result bool :=
  ResTry.try_except
    (t <- py_get release "is_trending" (JBool false) ;;
     if negb (truthy t) then Ok false
     else
       date_str <- py_get release "release_date" (JStr "") ;;
       d <- parse_date date_str ;;
       match d with
       | Some release_date =>
           Ok ((today <=? release_date) && (release_date <=? end_date))
       | None => Ok false
       end)%res
    [ExceptionC]
    (* the log line evaluates release.get('name') *)
    (fun _ => (_ <- py_get release "name" JNull ;; Ok false)%res).

Fixpoint upcoming_loop (today end_date : date) (rs : list json)
  : result (list json) :=
  match rs with
  | [] => Ok []
  | release :: rest =>
      (b <- upcoming_step today end_date release ;;
       tl <- upcoming_loop today end_date rest ;;
       Ok (if b then release :: tl else tl))%res
  end.

(** The filter as the specification words it: the trending flag is
    set and the raw date parses to a date within
    [[today, end_date]]. *)
Definition wanted (today end_date : date) (release : json) : bool :=
  json_trending release
  && match py_get release "release_date" (JStr "") with
     | Ok date_str =>
         match parse_date date_str with
         | Ok (Some d) => (today <=? d) && (d <=? end_date)
         | _ => false
         end
     | Raise _ => false
     end.

(** [clk 0] is read by the load, [clk 1] by [should_fetch_new_data],
    [clk 2] and [clk 3] by the nested [get_sneaker_releases()],
    [clk 4] is the [datetime.now()] that gives [today]. *)
Definition get_upcoming_sneaker_releases (days : Z) (clk : nat -> datetime)
  : M (list json) :=
  (load_if_empty (clk 0%nat) ;;;
   stale <- should_fetch_new_data (clk 1%nat) ;;
   (if stale : bool then
      _ <- get_sneaker_releases false (clk 2%nat) (clk 3%nat) ;; MM.ret tt
    else MM.ret tt) ;;;
   s <- MM.get_state ;;
   if negb (truthy (releases s)) then MM.ret []
   else
     let today := date_of (clk 4%nat) in
     end_date <- MM.lift (date_add_days today days) ;;
     rs <- MM.lift (py_iter (releases s)) ;;
     MM.lift (upcoming_loop today end_date rs))%M.


(** ** Threads: the interleaving semantics

    Callers of [get_sneaker_releases] and background tasks run as
    threads over the shared world.  Each thread advances by atomic
    steps that follow the statements of the source, and a configuration
    steps when any one thread does.  The load prologue and the save are
    taken as one step each: they touch neither the lock nor the
    in-progress flag.  [lock.acquire(blocking=False)] is a single atomic
    step, as the lock guarantees. *)

Inductive caller_pc : Type :=
| AtLoad            (* the load prologue *)
| AtFreshTest       (* [if not force_refresh and ...] *)
| AtReturnCached    (* [return _state['releases']] *)
| AtProgressTest    (* [if _state['fetch_in_progress']] *)
| AtAcquire         (* [if not _state['fetch_lock'].acquire(blocking=False)] *)
| AtStart           (* [thread.start()], with the lock held *)
| AtReturn          (* [return _state['releases'] or []] *)
| Returned (v : json)
| Failed (e : exn).

Record Caller : Type := mkCaller {
  force_refresh : bool;
  now_load : datetime;
  now_test : datetime;
  cpc : caller_pc
}.

Definition at_pc (c : Caller) (pc : caller_pc) : Caller :=
  mkCaller (force_refresh c) (now_load c) (now_test c) pc.

Definition caller_step (c : Caller) (w : World) : caller_pc * World :=
  let s := state w in
  match cpc c with
  | AtLoad =>
      match load_if_empty (now_load c) w with
      | (w', Ok _) => (AtFreshTest, w')
      | (w', Raise e) => (Failed e, w')
      end
  | AtFreshTest =>
      match serve_cached (force_refresh c) (now_test c) s with
      | Ok true => (AtReturnCached, w)
      | Ok false => (AtProgressTest, w)
      | Raise e => (Failed e, w)
      end
  | AtReturnCached => (Returned (releases s), w)
  | AtProgressTest =>
      if fetch_in_progress s then (AtReturn, w) else (AtAcquire, w)
  | AtAcquire =>
      match lock_acquire w with
      | (w', Ok true) => (AtStart, w')
      | (w', _) => (AtReturn, w')
      end
  | AtStart => (AtReturn, fst (MM.thread_start w))
  | AtReturn => (Returned (or_empty (releases s)), w)
  | Returned v => (Returned v, w)
  | Failed e => (Failed e, w)
  end.

Inductive task_pc : Type :=
| TStart                              (* [_state['fetch_in_progress'] = True] *)
| TCrawl                              (* [all_sneakers = fetch_sneaker_data()] *)
| TSave (all_sneakers : list Item)    (* [if save_sneaker_data(all_sneakers)] *)
| TSwapReleases (all_sneakers : list Item)
| TSwapTime
| TFinally                            (* [_state['fetch_in_progress'] = False] *)
| TRelease                            (* [_state['fetch_lock'].release()] *)
| TDone.

Definition task_step (r : Refresh) (pc : task_pc) (w : World) : task_pc * World :=
  match pc with
  | TStart => (TCrawl, fst (MM.modify_state (set_fetch_in_progress true) w))
  | TCrawl =>
      match fetch_sneaker_data (crawl r) with
      | Ok [] => (TFinally, w)
      | Ok all_sneakers => (TSave all_sneakers, w)
      | Raise _ => (TFinally, w)
      end
  | TSave all_sneakers =>
      match save_sneaker_data all_sneakers (now_save r) (write r) w with
      | (w', Ok true) => (TSwapReleases all_sneakers, w')
      | (w', _) => (TFinally, w')
      end
  | TSwapReleases all_sneakers =>
      (TSwapTime,
       fst (MM.modify_state (set_releases (JArr (map item_json all_sneakers))) w))
  | TSwapTime =>
      (TFinally,
       fst (MM.modify_state (set_last_fetch_time (Some (Naive (now_swap r)))) w))
  | TFinally => (TRelease, fst (MM.modify_state (set_fetch_in_progress false) w))
  | TRelease => (TDone, fst (lock_release w))
  | TDone => (TDone, w)
  end.

Record Config : Type := mkConfig {
  world : World;
  callers : list Caller;
  tasks : list (Refresh * task_pc)
}.

Definition is_at_start (c : Caller) : bool :=
  match cpc c with AtStart => true | _ => false end.

(** A task is an active refresh from its start to its release of the lock. *)
Definition active (t : Refresh * task_pc) : bool :=
  match snd t with TDone => false | _ => true end.

Definition active_crawls (cfg : Config) : nat :=
  List.length (filter active (tasks cfg)).

Inductive step : Config -> Config -> Prop :=
| step_arrive : forall w cs ts force_refresh t1 t2,
    (* a new call enters get_sneaker_releases *)
    step (mkConfig w cs ts)
         (mkConfig w (cs ++ [mkCaller force_refresh t1 t2 AtLoad]) ts)
| step_caller : forall w cs1 c cs2 ts pc' w',
    cpc c <> AtStart ->
    caller_step c w = (pc', w') ->
    step (mkConfig w (cs1 ++ c :: cs2) ts)
         (mkConfig w' (cs1 ++ at_pc c pc' :: cs2) ts)
| step_spawn : forall w cs1 c cs2 ts pc' w' r,
    (* thread.start(): the new task meets an arbitrary outside world *)
    cpc c = AtStart ->
    caller_step c w = (pc', w') ->
    step (mkConfig w (cs1 ++ c :: cs2) ts)
         (mkConfig w' (cs1 ++ at_pc c pc' :: cs2) (ts ++ [(r, TStart)]))
| step_task : forall w cs ts1 r pc ts2 pc' w',
    task_step r pc w = (pc', w') ->
    step (mkConfig w cs (ts1 ++ (r, pc) :: ts2))
         (mkConfig w' cs (ts1 ++ (r, pc') :: ts2)).

Inductive steps : Config -> Config -> Prop :=
| steps_refl : forall cfg, steps cfg cfg
| steps_step : forall cfg1 cfg2 cfg3,
    steps cfg1 cfg2 -> step cfg2 cfg3 -> steps cfg1 cfg3.

(** The process starts with the lock free and no thread running; the
    file and the rest of the state are arbitrary. *)
Definition initial (cfg : Config) : Prop :=
  fetch_lock (state (world cfg)) = false /\ callers cfg = [] /\ tasks cfg = [].

Definition reachable (cfg : Config) : Prop :=
  exists cfg0, initial cfg0 /\ steps cfg0 cfg.

(** The threads entitled to the lock: callers between their acquire and
    their [thread.start()], and active tasks. *)
Definition holders (cfg : Config) : nat :=
  (List.length (filter is_at_start (callers cfg)) + active_crawls cfg)%nat.

Definition lock_count (w : World) : nat :=
  if fetch_lock (state w) then 1%nat else 0%nat.

(** Run a thread alone for [n] steps. *)
Fixpoint caller_run (n : nat) (c : Caller) (w : World) : caller_pc * World :=
  match n with
  | O => (cpc c, w)
  | S n' => let (pc', w') := caller_step c w in caller_run n' (at_pc c pc') w'
  end.

Fixpoint task_run (n : nat) (r : Refresh) (pc : task_pc) (w : World)
  : task_pc * World :=
  match n with
  | O => (pc, w)
  | S n' => let (pc', w') := task_step r pc w in task_run n' r pc' w'
  end.

End Library.

(** ** Instances of the parameters and concrete worlds, for the examples *)

(** A date reader that knows the single format [%Y-%m-%d], written with
    four, two and two digits. *)
Definition strptime_ymd (s fmt : string) : option date :=
  if String.eqb fmt "%Y-%m-%d" then
    match parse_date_part s with
    | Some (y, m, d, "") =>
        if valid_datetime (mkDT y m d 0 0 0 0) then Some (ymd2ord y m d) else None
    | _ => None
    end
  else None.

(** A [fromisoformat] that accepts nothing beyond [parse_isoformat]. *)
Definition fromisoformat_strict (s : string) : result timestamp :=
  Raise ValueError.

Definition noon : datetime := mkDT 2024 6 1 12 0 0 0.
Definition six_pm : datetime := mkDT 2024 6 1 18 0 0 0.
Definition seven_pm : datetime := mkDT 2024 6 1 19 0 0 0.

Definition june_items : list Item :=
  [mkItem (Some "A") (Some "2024-06-01") (Some "$100") None None true;
   mkItem (Some "B") (Some "2024-06-02") (Some "$100") None None false;
   mkItem (Some "C") (Some "2024-07-01") (Some "$100") None None true;
   mkItem (Some "D") (Some "soon") (Some "$100") None None true;
   mkItem (Some "E") None (Some "$100") None None true].

(** A snapshot fetched at noon is held; nothing is running. *)
Definition world_idle : World :=
  mkWorld (mkState (JArr (map item_json june_items)) (Some (Naive noon)) false false false)
          Missing 0.

(** The same, while a refresh is running. *)
Definition world_busy : World :=
  mkWorld (mkState (JArr (map item_json june_items)) (Some (Naive noon)) true true false)
          Missing 0.

(** A snapshot is held whose timestamp carries a UTC offset. *)
Definition world_aware : World :=
  mkWorld (mkState (JArr (map item_json june_items)) (Some Aware) false false false)
          Missing 0.

(** A fresh process whose file holds the JSON document [[]]. *)
Definition world_wrong_shape : World :=
  mkWorld initial_state (Document (JArr [])) 0.

(** A fresh process with no file. *)
Definition world_fresh : World := mkWorld initial_state Missing 0.

Definition refresh_5_3_0_5 : Refresh :=
  mkRefresh (mkCrawl (Ok tt) site_5_3_0_5 []) WriteOk noon noon.

Definition site_one_page (page_num : nat) : response :=
  match page_num with
  | 1%nat => Status 200 [elem_dated "2024-06-01"]
  | _ => Status 404 []
  end.

Definition refresh_one_page : Refresh :=
  mkRefresh (mkCrawl (Ok tt) site_one_page []) WriteOk noon noon.

(** A file whose [releases] member is a list holding a string. *)
Definition world_string_item : World :=
  mkWorld initial_state (Document (JObj [("releases", JArr [JStr "Dunk"])])) 0.

(** One forced call has taken the lock and started its task; a second
    forced call has just entered. *)
Definition first_caller : Caller := mkCaller true noon seven_pm AtLoad.
Definition second_caller : Caller := mkCaller true noon seven_pm AtLoad.

Definition config_start : Config := mkConfig world_idle [] [].

Definition config_one_running : Config :=
  mkConfig
    (mkWorld (mkState (JArr (map item_json june_items)) (Some (Naive noon)) true false false)
             Missing 1)
    [at_pc first_caller AtReturn; second_caller]
    [(refresh_one_page, TStart)].

(** ** [format_sneaker_release] *)

From Stdlib Require DecimalString.

Section Formatting.

(** [str(v)] of a list or of a dict. *)
Variable str_container : json -> string.

(** [str(v)], as an f-string field renders a value. *)
Definition py_str (v : json) : string :=
  match v with
  | JNull => "None"
  | JBool true => "True"
  | JBool false => "False"
  | JNum n => DecimalString.NilZero.string_of_int (Z.to_int n)
  | JStr s => s
  | JArr _ | JObj _ => str_container v
  end.

(** The [date_format] argument is not used by the function.  The value
    returned is the text of a link, or the name as it is stored. *)
Definition format_sneaker_release (release : json) : result json :=
  (name <- py_get release "name" (JStr "Unknown") ;;
   link <- py_get release "link" (JStr "") ;;
   if truthy link
   then Ok (JStr ("[" ++ py_str name ++ "](" ++ py_str link ++ ")"))
   else Ok name)%res.

End Formatting.

(** ** More sets of threads *)

(** The task has set the in-progress flag and not yet cleared it. *)
Definition flag_owner (t : Refresh * task_pc) : bool :=
  match snd t with
  | TCrawl | TSave _ | TSwapReleases _ | TSwapTime | TFinally => true
  | TStart | TRelease | TDone => false
  end.

Definition flag_count (w : World) : nat :=
  if fetch_in_progress (state w) then 1%nat else 0%nat.

(** ** More concrete inputs for the examples *)

Definition elem_plain : Elem :=
  mkElem (Some "/dunk-low") (Some "Dunk Low") (Some "2024-06-01")
         (Some ["$110"; "DD1391-100"]) true.

(** A file with one release and a timestamp that is not a date. *)
Definition bad_stamp_members : list (string * json) :=
  [("total_releases", JNum 1);
   ("trending_releases", JNum 1);
   ("releases", JArr [item_json (parse_sneaker_item elem_plain)]);
   ("last_updated", JStr "yesterday")].

Definition document_bad_stamp : json := JObj bad_stamp_members.

(** A process past its first run, with nothing in memory and that file. *)
Definition world_bad_stamp : World :=
  mkWorld (mkState JNull None false false false) (Document document_bad_stamp) 0.

(** A process past its first run, with nothing in memory and no file. *)
Definition world_empty : World :=
  mkWorld (mkState JNull None false false false) Missing 0.

(** * Properties *)

(** ** Sanity checks of the date model *)

Example ord_2024_06_01 : ymd2ord 2024 6 1 = 739038.
Proof. reflexivity. Qed.

Example ord_max : ymd2ord 9999 12 31 = MAXORDINAL.
Proof. reflexivity. Qed.

Example isoformat_ex1 :
  isoformat (mkDT 2024 6 1 9 5 0 0) = "2024-06-01T09:05:00".
Proof. reflexivity. Qed.

Example isoformat_ex2 :
  isoformat (mkDT 2024 6 1 9 5 0 1234) = "2024-06-01T09:05:00.001234".
Proof. reflexivity. Qed.

Example parse_isoformat_ex1 :
  parse_isoformat "2024-06-01T09:05:00.001234" = Some (mkDT 2024 6 1 9 5 0 1234).
Proof. reflexivity. Qed.

Example parse_isoformat_ex2 :
  parse_isoformat "2024-06-01" = Some (mkDT 2024 6 1 0 0 0 0).
Proof. reflexivity. Qed.

Example parse_isoformat_ex3 : parse_isoformat "2024-02-30T00:00:00" = None.
Proof. reflexivity. Qed.

Example parse_isoformat_ex4 : parse_isoformat "yesterday" = None.
Proof. reflexivity. Qed.

(** ** Digits and the ISO-8601 round trip *)

Lemma digit_val_char (d : Z) :
  0 <= d <= 9 -> digit_val (digit_char d) = Some d.
Proof.
  intros H.
  assert (E : d = 0 \/ d = 1 \/ d = 2 \/ d = 3 \/ d = 4 \/ d = 5 \/ d = 6
              \/ d = 7 \/ d = 8 \/ d = 9) by lia.
  repeat (destruct E as [E | E]; [subst d; reflexivity |]).
  subst d; reflexivity.
Qed.

Lemma pow10_succ (w : nat) : 10 ^ Z.of_nat (S w) = 10 * 10 ^ Z.of_nat w.
Proof. rewrite Nat2Z.inj_succ, Z.pow_succ_r by lia. reflexivity. Qed.

Lemma pow10_pos (w : nat) : 0 < 10 ^ Z.of_nat w.
Proof. apply Z.pow_pos_nonneg; lia. Qed.

Lemma parse_digits_from_zpad (w : nat) :
  forall acc n rest,
    0 <= n < 10 ^ Z.of_nat w ->
    parse_digits_from w acc (zpad w n ++ rest)
    = Some (acc * 10 ^ Z.of_nat w + n, rest).
Proof.
  induction w as [| w IH]; intros acc n rest Hn.
  - cbn in *. f_equal. f_equal. lia.
  - rewrite pow10_succ in Hn.
    pose proof (pow10_pos w) as Hp.
    cbn [zpad append parse_digits_from].
    assert (Hq : 0 <= n / 10 ^ Z.of_nat w <= 9).
    { split.
      - apply Z.div_pos; lia.
      - assert (n / 10 ^ Z.of_nat w < 10); [| lia].
        apply Z.div_lt_upper_bound; lia. }
    rewrite (digit_val_char _ Hq).
    rewrite IH by (apply Z.mod_pos_bound; lia).
    rewrite pow10_succ. f_equal. f_equal.
    pose proof (Z.div_mod n (10 ^ Z.of_nat w)) as Hdm. nia.
Qed.

Lemma parse_digits_zpad (w : nat) (n : Z) (rest : string) :
  0 <= n < 10 ^ Z.of_nat w ->
  parse_digits w (zpad w n ++ rest) = Some (n, rest).
Proof.
  intros H. unfold parse_digits. rewrite parse_digits_from_zpad by exact H.
  reflexivity.
Qed.

Lemma append_empty_r (s : string) : s ++ "" = s.
Proof. induction s as [| c s IH]; cbn; [reflexivity | now rewrite IH]. Qed.

Lemma parse_fraction_zpad (us : Z) :
  0 <= us < 1000000 -> parse_fraction (zpad 6 us) = Some us.
Proof.
  intros H. unfold parse_fraction.
  change (String.length (zpad 6 us)) with 6%nat. cbv iota.
  rewrite <- (append_empty_r (zpad 6 us)).
  rewrite parse_digits_zpad; [reflexivity |].
  change (10 ^ Z.of_nat 6) with 1000000. exact H.
Qed.

Lemma valid_datetime_bounds (t : datetime) :
  valid_datetime t = true ->
  1 <= year t <= 9999 /\ 1 <= month t <= 12 /\
  1 <= day t <= days_in_month (year t) (month t) /\
  0 <= hour t < 24 /\ 0 <= minute t < 60 /\ 0 <= second t < 60 /\
  0 <= microsecond t < 1000000.
Proof.
  unfold valid_datetime. intros H.
  repeat (apply andb_prop in H; destruct H as [H ?]).
  repeat match goal with
         | h : (_ <=? _) = true |- _ => apply Z.leb_le in h
         | h : (_ <? _) = true |- _ => apply Z.ltb_lt in h
         end.
  lia.
Qed.

Lemma days_in_month_le_31 (y m : Z) : days_in_month y m <= 31.
Proof.
  unfold days_in_month.
  destruct (m =? 2); [destruct (is_leap y); lia |].
  destruct ((m =? 4) || (m =? 6) || (m =? 9) || (m =? 11)); lia.
Qed.

(** [parse_isoformat] undoes [isoformat] on every valid naive datetime. *)
Lemma parse_isoformat_isoformat (t : datetime) :
  valid_datetime t = true -> parse_isoformat (isoformat t) = Some t.
Proof.
  intros Hv. pose proof (valid_datetime_bounds t Hv) as B.
  destruct t as [y m d h mi se us]. cbn [year month day hour minute second microsecond] in *.
  pose proof (days_in_month_le_31 y m) as Hdim.
  unfold parse_isoformat, isoformat, parse_date_part.
  cbn [year month day hour minute second microsecond].
  rewrite parse_digits_zpad by (change (10 ^ Z.of_nat 4) with 10000; lia).
  cbn [append expect Ascii.eqb Bool.eqb].
  rewrite parse_digits_zpad by (change (10 ^ Z.of_nat 2) with 100; lia).
  cbn [append expect Ascii.eqb Bool.eqb].
  rewrite parse_digits_zpad by (change (10 ^ Z.of_nat 2) with 100; lia).
  cbn [append].
  unfold parse_time.
  rewrite parse_digits_zpad by (change (10 ^ Z.of_nat 2) with 100; lia).
  cbn [append expect Ascii.eqb Bool.eqb].
  rewrite parse_digits_zpad by (change (10 ^ Z.of_nat 2) with 100; lia).
  cbn [append expect Ascii.eqb Bool.eqb].
  rewrite parse_digits_zpad by (change (10 ^ Z.of_nat 2) with 100; lia).
  unfold checked.
  destruct (Z.eqb_spec us 0) as [-> | Hus].
  - rewrite Hv. reflexivity.
  - cbn [append expect Ascii.eqb Bool.eqb].
    rewrite parse_fraction_zpad by lia.
    rewrite Hv. reflexivity.
Qed.

(** ** The file store *)

Section StoreFacts.

Variable fromisoformat_other : string -> result timestamp.

(** A missing, unreadable or non-JSON file loads as [(None, None)]. *)
Lemma load_tolerates_missing_and_undecodable_json (now : datetime) (f : FileState) :
  f = Missing \/ f = Unreadable \/ f = NotJson ->
  load_sneaker_releases_from_file fromisoformat_other now f = Ok (JNull, None).
Proof. intros [-> | [-> | ->]]; reflexivity. Qed.

(** C7 (code at the failing input).  A file holding the JSON document
    [[]] is well-formed JSON of the wrong shape: [data.get] raises
    [AttributeError], which the [except (JSONDecodeError, IOError)]
    clause does not catch, so the load raises to its caller instead of
    returning [(None, None)].  A document whose [releases] member is
    [null] and a file that is not UTF-8 raise as well. *)
Theorem load_raises_on_wrong_shape (now : datetime) :
  load_sneaker_releases_from_file fromisoformat_other now (Document (JArr [])) = Raise AttributeError
  /\ load_sneaker_releases_from_file fromisoformat_other now (Document (JObj [("releases", JNull)]))
     = Raise TypeError
  /\ load_sneaker_releases_from_file fromisoformat_other now Undecodable = Raise UnicodeDecodeError.
Proof. repeat split. Qed.

Lemma json_trending_item (i : Item) : json_trending (item_json i) = is_trending i.
Proof. reflexivity. Qed.

Lemma filter_map_item_json (rs : list Item) :
  filter json_trending (map item_json rs) = map item_json (filter is_trending rs).
Proof.
  induction rs as [| i rs IH]; [reflexivity |].
  cbn [map filter]. rewrite json_trending_item.
  destruct (is_trending i); cbn [map]; now rewrite IH.
Qed.

Lemma save_outcome (rs : list Item) (now : datetime) (wr : write_outcome) (w : World) :
  save_sneaker_data rs now wr w =
  match wr with
  | WriteOk => (mkWorld (state w) (Document (document rs now)) (started w), Ok true)
  | OpenFails => (w, Ok false)
  | WriteFails => (mkWorld (state w) NotJson (started w), Ok false)
  end.
Proof. destruct wr; reflexivity. Qed.

Lemma save_keeps_state (rs : list Item) (now : datetime) (wr : write_outcome) (w : World) :
  state (fst (save_sneaker_data rs now wr w)) = state w
  /\ started (fst (save_sneaker_data rs now wr w)) = started w.
Proof. rewrite save_outcome. destruct wr; split; reflexivity. Qed.

Lemma load_document (rs : list Item) (now now' : datetime) :
  valid_datetime now = true ->
  load_sneaker_releases_from_file fromisoformat_other now' (Document (document rs now))
  = Ok (JArr (map item_json rs), Some (Naive now)).
Proof.
  intros Hv.
  unfold load_sneaker_releases_from_file, document.
  cbn [exists_file negb read_json Res.bind py_get assoc String.eqb Ascii.eqb Bool.eqb].
  unfold parse_last_updated, fromisoformat.
  assert (Ht : truthy (JStr (isoformat now)) = true).
  { destruct now as [y m d h mi se us]. reflexivity. }
  rewrite Ht. rewrite (parse_isoformat_isoformat now Hv). reflexivity.
Qed.

(** C8.  When [save_sneaker_data] reports success at clock reading
    [now], a following [load_sneaker_releases_from_file] returns the
    saved item sequence and the timestamp [now], and the counts stored
    in the file are the length of that sequence and the number of its
    trending items. *)
Theorem save_then_load_round_trip
    (rs : list Item) (now now' : datetime) (wr : write_outcome) (w w' : World) :
  valid_datetime now = true ->
  save_sneaker_data rs now wr w = (w', Ok true) ->
  exists data items,
    file w' = Document data
    /\ load_sneaker_releases_from_file fromisoformat_other now' (file w')
       = Ok (JArr items, Some (Naive now))
    /\ items = map item_json rs
    /\ py_get data "total_releases" JNull = Ok (JNum (Z.of_nat (List.length items)))
    /\ py_get data "trending_releases" JNull
       = Ok (JNum (Z.of_nat (List.length (filter json_trending items)))).
Proof.
  intros Hv Hs. rewrite save_outcome in Hs.
  destruct wr; inversion Hs; subst w'; clear Hs.
  exists (document rs now), (map item_json rs). cbn [file].
  split; [reflexivity |].
  split; [apply load_document; exact Hv |].
  split; [reflexivity |].
  split.
  - cbn. now rewrite length_map.
  - rewrite filter_map_item_json, length_map. reflexivity.
Qed.

End StoreFacts.

Lemma save_then_load_round_trip_witness :
  exists data items,
    file (fst (save_sneaker_data
                 [mkItem (Some "Dunk") (Some "June 1, 2024") None None None true]
                 (mkDT 2024 6 1 9 5 0 1234) WriteOk
                 (mkWorld initial_state Missing 0))) = Document data
    /\ load_sneaker_releases_from_file fromisoformat_strict (mkDT 2024 6 2 0 0 0 0)
         (file (fst (save_sneaker_data
                 [mkItem (Some "Dunk") (Some "June 1, 2024") None None None true]
                 (mkDT 2024 6 1 9 5 0 1234) WriteOk
                 (mkWorld initial_state Missing 0))))
       = Ok (JArr items, Some (Naive (mkDT 2024 6 1 9 5 0 1234)))
    /\ items = map item_json
                 [mkItem (Some "Dunk") (Some "June 1, 2024") None None None true]
    /\ py_get data "total_releases" JNull = Ok (JNum (Z.of_nat (List.length items)))
    /\ py_get data "trending_releases" JNull
       = Ok (JNum (Z.of_nat (List.length (filter json_trending items)))).
Proof.
  apply (save_then_load_round_trip fromisoformat_strict
           [mkItem (Some "Dunk") (Some "June 1, 2024") None None None true]
           (mkDT 2024 6 1 9 5 0 1234) (mkDT 2024 6 2 0 0 0 0) WriteOk
           (mkWorld initial_state Missing 0)).
  - reflexivity.
  - reflexivity.
Defined.

(** ** The background task *)

Lemma fetch_body_keeps_lock (r : Refresh) (w : World) :
  fetch_lock (state (fst (fetch_body r w))) = fetch_lock (state w).
Proof.
  unfold fetch_body, MM.bind, MM.lift, MM.modify_state, MM.ret. cbn [state].
  destruct (fetch_sneaker_data (crawl r)) as [[| i l] | e]; try reflexivity.
  rewrite save_outcome. destruct (write r); reflexivity.
Qed.

(** Whatever the body does, and however it ends, the guard clears the
    flag and frees a held lock. *)
Lemma guarded_releases (body : M unit) (w : World) :
  fetch_lock (state (fst (body w))) = true ->
  guarded body w =
  (mkWorld (set_fetch_lock false (set_fetch_in_progress false (state (fst (body w)))))
           (file (fst (body w))) (started (fst (body w))),
   Ok tt).
Proof.
  intros H. unfold guarded, MM.try_finally, MM.try_except.
  destruct (body w) as [w1 [[] | e]]; cbn [fst] in H;
    unfold MM.bind, MM.modify_state, MM.ret, lock_release; cbn [state file started];
    unfold set_fetch_in_progress at 1 2; cbn [fetch_lock]; rewrite H; reflexivity.
Qed.

(** What one run of the task does to the held snapshot and timestamp. *)
Lemma fetch_thread_snapshot (r : Refresh) (w : World) :
  let s' := state (fst (fetch_thread r w)) in
  match fetch_sneaker_data (crawl r), write r with
  | Ok (i :: l), WriteOk =>
      releases s' = JArr (map item_json (i :: l))
      /\ last_fetch_time s' = Some (Naive (now_swap r))
  | _, _ =>
      releases s' = releases (state w)
      /\ last_fetch_time s' = last_fetch_time (state w)
  end.
Proof.
  unfold fetch_thread, guarded, fetch_body, MM.try_finally, MM.try_except,
    MM.bind, MM.lift, MM.modify_state, MM.ret, lock_release.
  cbn [state file started].
  destruct (fetch_sneaker_data (crawl r)) as [[| i l] | e].
  - cbn. destruct (fetch_lock (state w)); cbn; split; reflexivity.
  - rewrite save_outcome.
    destruct (write r); cbn; destruct (fetch_lock (state w)); cbn; split; reflexivity.
  - cbn. destruct (fetch_lock (state w)); cbn; split; reflexivity.
Qed.

(** C2.  One run of the background task replaces the held snapshot and
    timestamp exactly when the crawl returned a non-empty list and the
    save succeeded; when the crawl raised, returned the empty list, or
    the save failed, both are what they were before. *)
Theorem fetch_thread_swaps_only_after_save (r : Refresh) (w : World) :
  let s' := state (fst (fetch_thread r w)) in
  match fetch_sneaker_data (crawl r), write r with
  | Ok (i :: l), WriteOk =>
      releases s' = JArr (map item_json (i :: l))
      /\ last_fetch_time s' = Some (Naive (now_swap r))
  | Ok (_ :: _), (OpenFails | WriteFails) | Ok [], _ | Raise _, _ =>
      releases s' = releases (state w)
      /\ last_fetch_time s' = last_fetch_time (state w)
  end.
Proof. exact (fetch_thread_snapshot r w). Qed.

(** C3.  Started with the lock held, the background task ends normally
    on every path, with [fetch_in_progress] false and the lock free, so
    that the next non-blocking acquire succeeds. *)
Theorem fetch_thread_always_releases (r : Refresh) (w : World) :
  fetch_lock (state w) = true ->
  snd (fetch_thread r w) = Ok tt
  /\ fetch_in_progress (state (fst (fetch_thread r w))) = false
  /\ fetch_lock (state (fst (fetch_thread r w))) = false
  /\ snd (lock_acquire (fst (fetch_thread r w))) = Ok true.
Proof.
  intros H. unfold fetch_thread.
  rewrite guarded_releases by (rewrite fetch_body_keeps_lock; exact H).
  cbn. repeat split.
Qed.

Lemma fetch_thread_always_releases_witness :
  snd (fetch_thread
         (mkRefresh (mkCrawl (Raise RuntimeError) (fun _ => RequestFails) [])
                    WriteFails (mkDT 2024 6 1 0 0 0 0) (mkDT 2024 6 1 0 0 1 0))
         (mkWorld (mkState JNull None true false true) Missing 0)) = Ok tt
  /\ fetch_in_progress (state (fst (fetch_thread
         (mkRefresh (mkCrawl (Raise RuntimeError) (fun _ => RequestFails) [])
                    WriteFails (mkDT 2024 6 1 0 0 0 0) (mkDT 2024 6 1 0 0 1 0))
         (mkWorld (mkState JNull None true false true) Missing 0)))) = false
  /\ fetch_lock (state (fst (fetch_thread
         (mkRefresh (mkCrawl (Raise RuntimeError) (fun _ => RequestFails) [])
                    WriteFails (mkDT 2024 6 1 0 0 0 0) (mkDT 2024 6 1 0 0 1 0))
         (mkWorld (mkState JNull None true false true) Missing 0)))) = false
  /\ snd (lock_acquire (fst (fetch_thread
         (mkRefresh (mkCrawl (Raise RuntimeError) (fun _ => RequestFails) [])
                    WriteFails (mkDT 2024 6 1 0 0 0 0) (mkDT 2024 6 1 0 0 1 0))
         (mkWorld (mkState JNull None true false true) Missing 0)))) = Ok true.
Proof.
  apply (fetch_thread_always_releases
           (mkRefresh (mkCrawl (Raise RuntimeError) (fun _ => RequestFails) [])
                      WriteFails (mkDT 2024 6 1 0 0 0 0) (mkDT 2024 6 1 0 0 1 0))
           (mkWorld (mkState JNull None true false true) Missing 0)).
  reflexivity.
Defined.

(** ** The worker pool *)

Lemma remove_nth_In {A} (l : list A) :
  forall k x y, nth_error l k = Some x -> In y l -> y = x \/ In y (remove_nth k l).
Proof.
  induction l as [| a l IH]; intros k x y Hk Hy; [destruct Hy |].
  destruct k as [| k]; cbn in *.
  - inversion Hk; subst. destruct Hy as [-> | Hy]; auto.
  - destruct Hy as [-> | Hy]; [right; now left |].
    destruct (IH k x y Hk Hy) as [-> | H]; auto.
Qed.

Lemma remove_nth_incl {A} (l : list A) :
  forall k y, In y (remove_nth k l) -> In y l.
Proof.
  induction l as [| a l IH]; intros k y H; [destruct k; destruct H |].
  destruct k as [| k]; cbn in *; [now right |].
  destruct H as [-> | H]; [now left | right; eauto].
Qed.

Lemma remove_nth_map {A B} (g : A -> B) (l : list A) :
  forall k, map g (remove_nth k l) = remove_nth k (map g l).
Proof.
  induction l as [| a l IH]; intros [| k]; cbn; try reflexivity.
  now rewrite IH.
Qed.

Lemma remove_nth_NoDup {A} (l : list A) :
  forall k, NoDup l -> NoDup (remove_nth k l).
Proof.
  induction l as [| a l IH]; intros k H; [destruct k; exact H |].
  inversion H as [| ? ? Hn Hd]; subst.
  destruct k as [| k]; cbn; [exact Hd |].
  constructor; [| now apply IH].
  intros Hin. apply Hn. eapply remove_nth_incl; eauto.
Qed.

Lemma remove_nth_fresh {A} (l : list A) :
  forall k x, NoDup l -> nth_error l k = Some x -> ~ In x (remove_nth k l).
Proof.
  induction l as [| a l IH]; intros k x Hd Hk; [destruct k; discriminate |].
  inversion Hd as [| ? ? Hn Hd']; subst.
  destruct k as [| k]; cbn in *.
  - inversion Hk; subst. exact Hn.
  - intros [-> | Hin].
    + apply Hn. eapply nth_error_In; eauto.
    + eapply IH; eauto.
Qed.

Lemma remove_nth_length {A} (l : list A) :
  forall k, (k < List.length l)%nat ->
            List.length (remove_nth k l) = Nat.pred (List.length l).
Proof.
  induction l as [| a l IH]; intros k Hk; cbn in *; [lia |].
  destruct k as [| k]; cbn; [reflexivity |].
  rewrite IH by lia. lia.
Qed.

(** A slot whose task is not pending is not written. *)
Lemma run_pool_frame {A B} (f : A -> B) (fuel : nat) :
  forall choices pending slots i,
    ~ In i (map fst pending) ->
    slot i (run_pool f choices pending slots fuel) = slot i slots.
Proof.
  induction fuel as [| fuel IH]; intros choices pending slots i Hi; [reflexivity |].
  cbn [run_pool].
  destruct (nth_error pending _) as [[j a] |] eqn:Hk; [| reflexivity].
  rewrite IH.
  - cbn [slot]. destruct (Nat.eqb_spec i j) as [-> | Hne]; [| reflexivity].
    exfalso. apply Hi. apply nth_error_In in Hk.
    apply (in_map fst) in Hk. exact Hk.
  - intros Hin. apply Hi. rewrite remove_nth_map in Hin.
    eapply remove_nth_incl; eauto.
Qed.

(** Every pending task ends up in its own slot, whatever the order. *)
Lemma run_pool_slot {A B} (f : A -> B) (fuel : nat) :
  forall choices pending slots i a,
    List.length pending = fuel ->
    NoDup (map fst pending) ->
    In (i, a) pending ->
    slot i (run_pool f choices pending slots fuel) = [f a].
Proof.
  induction fuel as [| fuel IH]; intros choices pending slots i a Hlen Hnd Hin.
  - destruct pending; [destruct Hin | discriminate].
  - cbn [run_pool].
    assert (Hk : (Nat.modulo (hd O choices) (List.length pending)
                  < List.length pending)%nat)
      by (apply Nat.mod_upper_bound; lia).
    destruct (nth_error pending _) as [[j b] |] eqn:Hnth;
      [| apply nth_error_None in Hnth; lia].
    destruct (remove_nth_In pending _ _ (i, a) Hnth Hin) as [E | Hrest].
    + inversion E; subst j b.
      rewrite run_pool_frame.
      * cbn [slot]. now rewrite Nat.eqb_refl.
      * rewrite remove_nth_map.
        apply (remove_nth_fresh (map fst pending) _ i Hnd).
        rewrite nth_error_map, Hnth. reflexivity.
    + apply IH; [| | exact Hrest].
      * rewrite remove_nth_length by exact Hk. lia.
      * rewrite remove_nth_map. now apply remove_nth_NoDup.
Qed.

Lemma combine_seq_fst {A} (xs : list A) :
  forall start, map fst (combine (seq start (List.length xs)) xs)
                = seq start (List.length xs).
Proof.
  induction xs as [| x xs IH]; intros start; [reflexivity |].
  cbn. now rewrite IH.
Qed.

Lemma combine_seq_In {A} (xs : list A) :
  forall start i a, nth_error xs i = Some a ->
                    In ((start + i)%nat, a) (combine (seq start (List.length xs)) xs).
Proof.
  induction xs as [| x xs IH]; intros start i a H; [destruct i; discriminate |].
  destruct i as [| i]; cbn in *.
  - inversion H; subst. left. f_equal. lia.
  - right. replace (start + S i)%nat with (S start + i)%nat by lia. now apply IH.
Qed.

Lemma flat_map_slots {A B} (f : A -> B) (g : nat -> list B) (xs : list A) :
  forall start,
    (forall i a, nth_error xs i = Some a -> g (start + i)%nat = [f a]) ->
    flat_map g (seq start (List.length xs)) = map f xs.
Proof.
  induction xs as [| x xs IH]; intros start H; [reflexivity |].
  cbn [List.length seq flat_map map].
  rewrite <- (Nat.add_0_r start) at 1.
  rewrite (H O x eq_refl). cbn [app]. f_equal.
  apply IH. intros i a Hi.
  replace (S start + i)%nat with (start + S i)%nat by lia. now apply H.
Qed.

(** [executor.map] yields the results in submission order, whatever the
    order in which the pool completed the tasks. *)
Lemma executor_map_in_order {A B} (choices : list nat) (f : A -> B) (xs : list A) :
  executor_map choices f xs = map f xs.
Proof.
  unfold executor_map. apply flat_map_slots. intros i a Hi.
  apply run_pool_slot.
  - rewrite length_combine, length_seq. lia.
  - rewrite combine_seq_fst. apply seq_NoDup.
  - apply (combine_seq_In xs O i a Hi).
Qed.

(** ** Sorting by the raw date string *)

Lemma string_compare_refl (s : string) : String.compare s s = Eq.
Proof.
  induction s as [| c s IH]; [reflexivity |].
  cbn. unfold Ascii.compare. rewrite N.compare_refl. exact IH.
Qed.

Lemma string_ltb_irrefl (s : string) : String.ltb s s = false.
Proof. unfold String.ltb. now rewrite string_compare_refl. Qed.

Lemma string_ltb_false_leb (x y : string) :
  String.ltb y x = false -> String.leb x y = true.
Proof.
  unfold String.ltb, String.leb. rewrite (String.compare_antisym y x).
  destruct (String.compare x y); cbn; congruence.
Qed.

Lemma string_ltb_true_leb (x y : string) :
  String.ltb y x = true -> String.leb y x = true.
Proof.
  unfold String.ltb, String.leb. destruct (String.compare y x); congruence.
Qed.

Lemma string_ltb_true_neq (x y : string) :
  String.ltb y x = true -> String.eqb y x = false.
Proof.
  intros H. destruct (String.eqb_spec y x) as [-> | Hne]; [| reflexivity].
  rewrite string_ltb_irrefl in H. discriminate.
Qed.

Lemma key_lt_ok (a b : option string) (r : bool) :
  key_lt a b = Ok r ->
  exists x y, a = Some x /\ b = Some y /\ r = String.ltb x y.
Proof.
  destruct a as [x |], b as [y |]; cbn; intros H; inversion H.
  exists x, y. auto.
Qed.

Lemma insert_sorted_raise (x : Item) (l : list Item) (e : exn) :
  insert_sorted x l = Raise e -> e = TypeError.
Proof.
  induction l as [| y l IH]; cbn; [discriminate |].
  destruct (release_date y) as [dy |], (release_date x) as [dx |]; cbn;
    try (intros H; inversion H; reflexivity).
  destruct (String.ltb dy dx); [| discriminate].
  destruct (insert_sorted x l) as [r | e']; cbn; [discriminate |].
  intros H. inversion H; subst. now apply IH.
Qed.

Lemma sort_raise (l : list Item) (e : exn) :
  sort_by_release_date l = Raise e -> e = TypeError.
Proof.
  induction l as [| x l IH]; cbn; [discriminate |].
  destruct (sort_by_release_date l) as [s | e']; cbn.
  - apply insert_sorted_raise.
  - intros H. inversion H; subst. now apply IH.
Qed.

Lemma insert_sorted_perm (x : Item) (l r : list Item) :
  insert_sorted x l = Ok r -> Permutation (x :: l) r.
Proof.
  revert r. induction l as [| y l IH]; intros r; cbn.
  - intros H. inversion H. apply Permutation_refl.
  - destruct (key_lt (release_date y) (release_date x)) as [[|] | e]; cbn;
      [| intros H; inversion H; apply Permutation_refl | discriminate].
    destruct (insert_sorted x l) as [r' | e]; cbn; [| discriminate].
    intros H. inversion H; subst.
    eapply Permutation_trans; [apply perm_swap |].
    apply perm_skip. now apply IH.
Qed.

Lemma sort_perm (l s : list Item) :
  sort_by_release_date l = Ok s -> Permutation l s.
Proof.
  revert s. induction l as [| x l IH]; intros s; cbn.
  - intros H. inversion H. constructor.
  - destruct (sort_by_release_date l) as [s' | e]; cbn; [| discriminate].
    intros H. apply insert_sorted_perm in H.
    eapply Permutation_trans; [| exact H]. apply perm_skip. now apply IH.
Qed.

(** A sort of two or more items that ends normally met no [None] key. *)
Lemma sort_ok_dates (l : list Item) :
  forall s, sort_by_release_date l = Ok s ->
            (2 <= List.length l)%nat -> forallb has_date l = true.
Proof.
  induction l as [| x l IH]; intros s Hs Hlen; [cbn in Hlen; lia |].
  cbn in Hs.
  destruct (sort_by_release_date l) as [s' | e] eqn:Hl; cbn in Hs; [| discriminate].
  pose proof (sort_perm l s' Hl) as Hp.
  destruct s' as [| y s''].
  { apply Permutation_sym, Permutation_nil in Hp. subst l. cbn in Hlen. lia. }
  cbn in Hs.
  destruct (key_lt (release_date y) (release_date x)) as [b | e] eqn:Hk;
    cbn in Hs; [| discriminate].
  apply key_lt_ok in Hk. destruct Hk as (dy & dx & Hy & Hx & _).
  cbn [forallb]. unfold has_date at 1. rewrite Hx. cbn.
  destruct l as [| z [| z' l']].
  - cbn in Hlen. lia.
  - cbn in Hl. inversion Hl; subst. cbn. unfold has_date. now rewrite Hy.
  - apply (IH (y :: s'') eq_refl). cbn. lia.
Qed.

(** With a [None] key among two or more items the sort raises. *)
Lemma sort_raises_on_missing_date (l : list Item) :
  (2 <= List.length l)%nat ->
  existsb (fun i => negb (has_date i)) l = true ->
  sort_by_release_date l = Raise TypeError.
Proof.
  intros Hlen Hex.
  destruct (sort_by_release_date l) as [s | e] eqn:Hs.
  - pose proof (sort_ok_dates l s Hs Hlen) as Hall.
    exfalso. clear - Hex Hall.
    induction l as [| x l IH]; cbn in *; [discriminate |].
    apply andb_prop in Hall. destruct Hall as [Hx Hl].
    rewrite Hx in Hex. cbn in Hex. auto.
  - f_equal. eapply sort_raise; eauto.
Qed.

Lemma insert_sorted_hd (x y : Item) (l r : list Item) :
  insert_sorted x l = Ok r -> date_le y x -> HdRel date_le y l ->
  HdRel date_le y r.
Proof.
  intros H Hyx Hl. destruct l as [| z l]; cbn in H.
  - inversion H. now constructor.
  - destruct (key_lt (release_date z) (release_date x)) as [[|] | e]; cbn in H;
      [| inversion H; now constructor | discriminate].
    destruct (insert_sorted x l) as [r' | e]; cbn in H; [| discriminate].
    inversion H; subst. inversion Hl; subst. now constructor.
Qed.

Lemma insert_sorted_sorted (x : Item) (l : list Item) :
  forall r, insert_sorted x l = Ok r -> Sorted date_le l -> Sorted date_le r.
Proof.
  induction l as [| y l IH]; intros r H Hs; cbn in H.
  - inversion H. repeat constructor.
  - destruct (key_lt (release_date y) (release_date x)) as [b | e] eqn:Hk;
      cbn in H; [| discriminate].
    apply key_lt_ok in Hk. destruct Hk as (dy & dx & Hy & Hx & ->).
    inversion Hs as [| ? ? Hs' Hhd]; subst.
    destruct (String.ltb dy dx) eqn:Hlt.
    + destruct (insert_sorted x l) as [r' | e] eqn:Hi; cbn in H; [| discriminate].
      inversion H; subst. constructor; [now apply IH |].
      eapply insert_sorted_hd; eauto.
      unfold date_le. rewrite Hy, Hx. now apply string_ltb_true_leb.
    + inversion H; subst. constructor; [exact Hs |].
      constructor. unfold date_le. rewrite Hy, Hx. now apply string_ltb_false_leb.
Qed.

Lemma insert_sorted_stable (k : string) (x : Item) (l : list Item) :
  forall r, insert_sorted x l = Ok r ->
            filter (dated k) r = filter (dated k) (x :: l).
Proof.
  induction l as [| y l IH]; intros r H; cbn in H.
  - inversion H. reflexivity.
  - destruct (key_lt (release_date y) (release_date x)) as [b | e] eqn:Hk;
      cbn in H; [| discriminate].
    apply key_lt_ok in Hk. destruct Hk as (dy & dx & Hy & Hx & ->).
    destruct (String.ltb dy dx) eqn:Hlt; [| inversion H; reflexivity].
    destruct (insert_sorted x l) as [r' | e] eqn:Hi; cbn in H; [| discriminate].
    inversion H; subst. cbn [filter]. rewrite (IH r' eq_refl). cbn [filter].
    assert (Ey : dated k y = String.eqb dy k) by (unfold dated; now rewrite Hy).
    assert (Ex : dated k x = String.eqb dx k) by (unfold dated; now rewrite Hx).
    rewrite Ey, Ex.
    destruct (String.eqb_spec dy k) as [-> | Hyk]; [| reflexivity].
    apply string_ltb_true_neq in Hlt.
    rewrite String.eqb_sym, Hlt. reflexivity.
Qed.

(** When every key is a string the sort ends normally; its result is a
    permutation of the input in ascending order of the date string, and
    items with the same date keep their order (the sort is stable). *)
Lemma sort_by_release_date_ok (l : list Item) :
  forallb has_date l = true ->
  exists s, sort_by_release_date l = Ok s
            /\ Permutation l s
            /\ Sorted date_le s
            /\ forall k, filter (dated k) s = filter (dated k) l.
Proof.
  induction l as [| x l IH]; intros Hall.
  - exists []. cbn. repeat split; constructor.
  - cbn in Hall. apply andb_prop in Hall. destruct Hall as [Hx Hl].
    destruct (IH Hl) as (s' & Hs' & Hp & Hsorted & Hstable).
    assert (Hins : exists s, insert_sorted x s' = Ok s).
    { assert (Hd : forallb has_date s' = true).
      { rewrite forallb_forall in *. intros i Hi. apply Hl.
        eapply Permutation_in; [apply Permutation_sym; exact Hp | exact Hi]. }
      clear - Hx Hd. induction s' as [| y s' IH]; [eexists; reflexivity |].
      cbn in Hd. apply andb_prop in Hd. destruct Hd as [Hy Hd].
      destruct (IH Hd) as [r Hr]. cbn. unfold has_date in Hx, Hy.
      destruct (release_date y), (release_date x); try discriminate. cbn.
      destruct (String.ltb _ _); [rewrite Hr |]; eexists; reflexivity. }
    destruct Hins as [s Hs]. exists s.
    split; [cbn; rewrite Hs'; exact Hs |].
    split; [eapply Permutation_trans;
            [apply perm_skip; exact Hp | now apply insert_sorted_perm] |].
    split; [eapply insert_sorted_sorted; eauto |].
    intros k. rewrite (insert_sorted_stable k x s' s Hs).
    cbn [filter]. now rewrite Hstable.
Qed.

(** *** A stable sort has one result *)

Lemma ascii_compare_refl (a : ascii) : Ascii.compare a a = Eq.
Proof. unfold Ascii.compare. apply N.compare_refl. Qed.

Lemma ascii_compare_lt_trans (a b c : ascii) :
  Ascii.compare a b = Lt -> Ascii.compare b c = Lt -> Ascii.compare a c = Lt.
Proof.
  unfold Ascii.compare. rewrite !N.compare_lt_iff. apply N.lt_trans.
Qed.

Lemma string_compare_lt_trans (a : string) :
  forall b c, String.compare a b = Lt -> String.compare b c = Lt ->
              String.compare a c = Lt.
Proof.
  induction a as [| x a IH]; intros [| y b] [| z c]; cbn; try discriminate; auto.
  destruct (Ascii.compare x y) eqn:Hxy, (Ascii.compare y z) eqn:Hyz;
    try discriminate.
  - apply Ascii.compare_eq_iff in Hxy, Hyz. subst.
    rewrite ascii_compare_refl. apply IH.
  - apply Ascii.compare_eq_iff in Hxy. subst. now rewrite Hyz.
  - apply Ascii.compare_eq_iff in Hyz. subst. now rewrite Hxy.
  - now rewrite (ascii_compare_lt_trans x y z Hxy Hyz).
Qed.

Lemma string_leb_cases (a b : string) :
  String.leb a b = true <-> a = b \/ String.compare a b = Lt.
Proof.
  unfold String.leb. split.
  - destruct (String.compare a b) eqn:H; try discriminate; intros _.
    + left. now apply String.compare_eq_iff.
    + now right.
  - intros [-> | H]; [now rewrite string_compare_refl | now rewrite H].
Qed.

Lemma string_leb_trans (a b c : string) :
  String.leb a b = true -> String.leb b c = true -> String.leb a c = true.
Proof.
  rewrite !string_leb_cases. intros [-> | Hab] [-> | Hbc]; auto.
  right. eapply string_compare_lt_trans; eauto.
Qed.

Lemma date_le_trans (a b c : Item) : date_le a b -> date_le b c -> date_le a c.
Proof.
  unfold date_le.
  destruct (release_date a), (release_date b), (release_date c);
    try contradiction; auto.
  apply string_leb_trans.
Qed.

Lemma date_le_same (a b : Item) :
  date_le a b -> date_le b a -> release_date a = release_date b.
Proof.
  unfold date_le.
  destruct (release_date a) as [x |], (release_date b) as [y |];
    try contradiction.
  intros H1 H2. f_equal. now apply String.leb_antisym.
Qed.

Lemma dated_key (i : Item) (k : string) :
  dated k i = true <-> release_date i = Some k.
Proof.
  unfold dated. destruct (release_date i) as [s |]; [| split; discriminate].
  rewrite String.eqb_eq. split; congruence.
Qed.

(** The head of a sorted list stands before every item of the list. *)
Lemma sorted_head_least (h : Item) (l : list Item) (i : Item) :
  Sorted date_le (h :: l) -> has_date h = true -> In i (h :: l) -> date_le h i.
Proof.
  intros Hs Hh Hi.
  assert (Hss : StronglySorted date_le (h :: l)).
  { apply Sorted_StronglySorted; [| exact Hs].
    intros a b c. apply date_le_trans. }
  destruct Hi as [<- | Hi].
  - unfold date_le, has_date in *. destruct (release_date h); [| discriminate].
    unfold String.leb. now rewrite string_compare_refl.
  - inversion Hss as [| ? ? _ Hall]; subst.
    rewrite Forall_forall in Hall. now apply Hall.
Qed.

(** Two sorted lists of dated items that hold, for every date, the same
    items in the same order are the same list: on string keys a stable
    sort has exactly one result. *)
Lemma stable_sort_unique (l1 : list Item) :
  forall l2,
    forallb has_date l1 = true -> forallb has_date l2 = true ->
    Sorted date_le l1 -> Sorted date_le l2 ->
    (forall k, filter (dated k) l1 = filter (dated k) l2) ->
    l1 = l2.
Proof.
  induction l1 as [| h1 t1 IH]; intros l2 Hd1 Hd2 Hs1 Hs2 Hf.
  - destruct l2 as [| h2 t2]; [reflexivity |].
    cbn in Hd2. apply andb_prop in Hd2. destruct Hd2 as [Hh2 _].
    unfold has_date in Hh2. destruct (release_date h2) as [k |] eqn:Hk;
      [| discriminate].
    specialize (Hf k). cbn in Hf.
    rewrite (proj2 (dated_key h2 k) Hk) in Hf. discriminate.
  - cbn in Hd1. apply andb_prop in Hd1. destruct Hd1 as [Hh1 Hd1].
    pose proof Hh1 as Hh1'. unfold has_date in Hh1'.
    destruct (release_date h1) as [k1 |] eqn:Hk1; [| discriminate].
    destruct l2 as [| h2 t2].
    { specialize (Hf k1). cbn in Hf.
      rewrite (proj2 (dated_key h1 k1) Hk1) in Hf. discriminate. }
    cbn in Hd2. apply andb_prop in Hd2. destruct Hd2 as [Hh2 Hd2].
    pose proof Hh2 as Hh2'. unfold has_date in Hh2'.
    destruct (release_date h2) as [k2 |] eqn:Hk2; [| discriminate].
    assert (In1 : In h1 (h2 :: t2)).
    { assert (H : In h1 (filter (dated k1) (h2 :: t2))).
      { rewrite <- Hf. apply filter_In. split; [now left |].
        now apply dated_key. }
      apply filter_In in H. tauto. }
    assert (In2 : In h2 (h1 :: t1)).
    { assert (H : In h2 (filter (dated k2) (h1 :: t1))).
      { rewrite Hf. apply filter_In. split; [now left |].
        now apply dated_key. }
      apply filter_In in H. tauto. }
    pose proof (sorted_head_least h1 t1 h2 Hs1 Hh1 In2) as L12.
    pose proof (sorted_head_least h2 t2 h1 Hs2 Hh2 In1) as L21.
    pose proof (date_le_same h1 h2 L12 L21) as Hsame.
    rewrite Hk1, Hk2 in Hsame. inversion Hsame; subst k2.
    pose proof (Hf k1) as Hf1. cbn [filter] in Hf1.
    rewrite (proj2 (dated_key h1 k1) Hk1), (proj2 (dated_key h2 k1) Hk2) in Hf1.
    inversion Hf1 as [[Hh Ht]]. subst h2. f_equal.
    apply IH; try assumption.
    + now inversion Hs1.
    + now inversion Hs2.
    + intros k. specialize (Hf k). cbn [filter] in Hf.
      destruct (dated k h1); [now inversion Hf | exact Hf].
Qed.

(** Whatever stable sort the library runs, on string keys it returns
    the list computed here. *)
Lemma sort_by_release_date_unique (l s l' : list Item) :
  forallb has_date l = true ->
  sort_by_release_date l = Ok s ->
  forallb has_date l' = true ->
  Sorted date_le l' ->
  (forall k, filter (dated k) l' = filter (dated k) l) ->
  l' = s.
Proof.
  intros Hd Hs Hd' Hsorted' Hstable'.
  destruct (sort_by_release_date_ok l Hd) as (s0 & Hs0 & Hp & Hsorted & Hstable).
  rewrite Hs in Hs0. inversion Hs0; subst s0.
  apply stable_sort_unique; try assumption.
  - rewrite forallb_forall in *. intros i Hi. apply Hd.
    eapply Permutation_in; [apply Permutation_sym; exact Hp | exact Hi].
  - intros k. now rewrite Hstable, Hstable'.
Qed.

(** ** The crawl *)

Lemma extend_until_empty_firstn (pages : list (list Item)) :
  extend_until_empty pages = List.concat (firstn (first_empty pages) pages).
Proof.
  induction pages as [| p pages IH]; [reflexivity |].
  destruct p as [| i p]; [reflexivity |].
  cbn [extend_until_empty first_empty firstn List.concat]. now rewrite IH.
Qed.

(** [first_empty] is the index of the first empty page: the pages
    before it are non-empty, and the page at it, when there is one, is
    empty. *)
Lemma first_empty_spec (pages : list (list Item)) :
  Forall (fun p => p <> []) (firstn (first_empty pages) pages)
  /\ ((first_empty pages < List.length pages)%nat ->
      nth_error pages (first_empty pages) = Some []).
Proof.
  induction pages as [| p pages [IH1 IH2]]; cbn.
  - split; [constructor | lia].
  - destruct p as [| i p]; cbn.
    + split; [constructor | reflexivity].
    + split; [constructor; [discriminate | exact IH1] |].
      intros H. apply IH2. lia.
Qed.

Lemma fetch_sneaker_data_unfold (c : Crawl) :
  create_scraper c = Ok tt ->
  fetch_sneaker_data c =
  match extend_until_empty (pages_of c) with
  | [] => Ok []
  | all_sneakers =>
      match sort_by_release_date all_sneakers with
      | Ok s => Ok s
      | Raise _ => Ok []
      end
  end.
Proof.
  intros Hc. unfold fetch_sneaker_data, pages_of. rewrite Hc. cbn [Res.bind].
  rewrite executor_map_in_order.
  destruct (extend_until_empty _) as [| i l]; [reflexivity |].
  unfold ResTry.try_except.
  destruct (sort_by_release_date (i :: l)); reflexivity.
Qed.

(** The completion order of the page fetches does not show in the result. *)
Lemma fetch_sneaker_data_any_order (c : Crawl) (choices : list nat) :
  fetch_sneaker_data (mkCrawl (create_scraper c) (site c) choices)
  = fetch_sneaker_data c.
Proof.
  unfold fetch_sneaker_data. cbn [create_scraper site completion].
  now rewrite !executor_map_in_order.
Qed.

(** When every aggregated item has a date string, the crawl returns the
    items of the pages before the first empty page, in ascending order
    of the date string. *)
Lemma crawl_aggregates_and_sorts (c : Crawl) :
  create_scraper c = Ok tt ->
  forallb has_date (extend_until_empty (pages_of c)) = true ->
  exists s,
    fetch_sneaker_data c = Ok s
    /\ Permutation (List.concat (firstn (first_empty (pages_of c)) (pages_of c))) s
    /\ Sorted date_le s.
Proof.
  intros Hc Hd. rewrite (fetch_sneaker_data_unfold c Hc).
  destruct (sort_by_release_date_ok _ Hd) as (s & Hs & Hp & Hsorted & _).
  rewrite <- extend_until_empty_firstn.
  destruct (extend_until_empty (pages_of c)) as [| i l] eqn:E.
  - exists []. cbn in Hs. inversion Hs; subst. repeat split; constructor.
  - exists s. rewrite Hs. auto.
Qed.

Lemma mixed_has_two {A} (p : A -> bool) (l : list A) :
  existsb p l = true -> existsb (fun x => negb (p x)) l = true ->
  (2 <= List.length l)%nat.
Proof.
  destruct l as [| a [| b l]]; cbn; try discriminate; [| lia].
  destruct (p a); cbn; discriminate.
Qed.

(** C5 (code at the failing input).  The pages hold 5, 3, 0 and 5
    items, so the pages before the first empty one hold 8 items; one of
    them has no date, and the crawl returns the empty list. *)
Theorem crawl_5_3_0_5_returns_nothing (choices : list nat) :
  let c := mkCrawl (Ok tt) site_5_3_0_5 choices in
  map (@List.length Item) (firstn 4 (pages_of c)) = [5; 3; 0; 5]%nat
  /\ List.length (List.concat (firstn (first_empty (pages_of c)) (pages_of c))) = 8%nat
  /\ fetch_sneaker_data c = Ok [].
Proof.
  intros c. split; [reflexivity |]. split; [reflexivity |].
  rewrite fetch_sneaker_data_unfold by reflexivity. reflexivity.
Qed.

(** C10.  When the aggregated items hold one without a date next to one
    with a date string, the sort raises [TypeError], the crawl returns
    the empty list, and the background task leaves the held snapshot
    and timestamp as they were. *)
Theorem crawl_with_missing_date_is_discarded (r : Refresh) (w : World) :
  create_scraper (crawl r) = Ok tt ->
  existsb (fun i => negb (has_date i)) (extend_until_empty (pages_of (crawl r))) = true ->
  existsb has_date (extend_until_empty (pages_of (crawl r))) = true ->
  sort_by_release_date (extend_until_empty (pages_of (crawl r))) = Raise TypeError
  /\ fetch_sneaker_data (crawl r) = Ok []
  /\ releases (state (fst (fetch_thread r w))) = releases (state w)
  /\ last_fetch_time (state (fst (fetch_thread r w))) = last_fetch_time (state w).
Proof.
  intros Hc Hnone Hsome.
  pose proof (mixed_has_two _ _ Hsome Hnone) as Hlen.
  pose proof (sort_raises_on_missing_date _ Hlen Hnone) as Hsort.
  assert (Hf : fetch_sneaker_data (crawl r) = Ok []).
  { rewrite (fetch_sneaker_data_unfold _ Hc). revert Hsort.
    destruct (extend_until_empty _) as [| i l]; [reflexivity |].
    intros ->. reflexivity. }
  split; [exact Hsort |]. split; [exact Hf |].
  pose proof (fetch_thread_snapshot r w) as H.
  cbv zeta in H. rewrite Hf in H. exact H.
Qed.

Lemma crawl_with_missing_date_is_discarded_witness :
  let r := mkRefresh (mkCrawl (Ok tt) site_5_3_0_5 [2; 0; 1]%nat) WriteOk
             (mkDT 2024 6 1 0 0 0 0) (mkDT 2024 6 1 0 0 1 0) in
  let w := mkWorld (mkState (JArr [JObj [("name", JStr "kept")]])
                            (Some (Naive (mkDT 2024 5 1 0 0 0 0))) true false false)
                   Missing 0 in
  sort_by_release_date (extend_until_empty (pages_of (crawl r))) = Raise TypeError
  /\ fetch_sneaker_data (crawl r) = Ok []
  /\ releases (state (fst (fetch_thread r w))) = releases (state w)
  /\ last_fetch_time (state (fst (fetch_thread r w))) = last_fetch_time (state w).
Proof.
  intros r w.
  apply (crawl_with_missing_date_is_discarded r w); reflexivity.
Defined.

(** ** The refresh coordinator *)

Section CoordinatorFacts.

Variable fromisoformat_other : string -> result timestamp.
Variable strptime : string -> string -> option date.

(** The load prologue touches nothing but the snapshot and its timestamp,
    and does nothing at all when a snapshot is held. *)
Lemma load_if_empty_frame (now : datetime) (w : World) :
  let w1 := fst (load_if_empty fromisoformat_other now w) in
  fetch_lock (state w1) = fetch_lock (state w)
  /\ fetch_in_progress (state w1) = fetch_in_progress (state w)
  /\ first_run (state w1) = first_run (state w)
  /\ file w1 = file w
  /\ started w1 = started w.
Proof.
  unfold load_if_empty, MM.bind, MM.get_state, MM.read_file, MM.lift,
    MM.modify_state, MM.ret.
  destruct (truthy (releases (state w))); cbn; [repeat split |].
  destruct (load_sneaker_releases_from_file fromisoformat_other now (file w))
    as [[rel lft] | e]; cbn; [| repeat split].
  destruct (truthy rel); cbn; repeat split.
Qed.

Lemma load_if_empty_held (now : datetime) (w : World) :
  truthy (releases (state w)) = true ->
  load_if_empty fromisoformat_other now w = (w, Ok tt).
Proof.
  intros H. unfold load_if_empty, MM.bind, MM.get_state. now rewrite H.
Qed.

(** The clock reading passed to the load only fills in a timestamp
    that does not parse: it changes neither whether the load raises nor
    the releases it returns. *)
Lemma load_now_irrelevant (now now' : datetime) (f : FileState)
    (rel : json) (lft : option timestamp) :
  load_sneaker_releases_from_file fromisoformat_other now f = Ok (rel, lft) ->
  exists lft',
    load_sneaker_releases_from_file fromisoformat_other now' f = Ok (rel, lft').
Proof.
  unfold load_sneaker_releases_from_file.
  destruct f as [| | | | data]; cbn;
    try (intros H; inversion H; subst; eexists; reflexivity);
    try discriminate.
  unfold ResTry.try_except.
  destruct (py_get data "releases" (JArr [])) as [releases | e]; cbn [Res.bind].
  2: { intros H. exists lft. exact H. }
  destruct (py_get data "last_updated" JNull) as [last_updated | e]; cbn [Res.bind].
  2: { intros H. exists lft. exact H. }
  unfold parse_last_updated, ResTry.try_except.
  destruct (truthy last_updated).
  2: { cbn [Res.bind]. intros H. exists lft. exact H. }
  destruct last_updated as [| | | s | |];
    try (cbn; intros H; exists lft; exact H).
  destruct (fromisoformat fromisoformat_other s) as [t | e]; cbn [Res.bind].
  { intros H. exists lft. exact H. }
  destruct (existsb (isinstance e) [ValueErrorC]); cbn [Res.bind].
  - destruct (py_len releases) as [n | e']; cbn [Res.bind].
    + intros H. inversion H; subst. eexists; reflexivity.
    + intros H. exists lft. exact H.
  - intros H. exists lft. exact H.
Qed.

(** A load prologue that ends normally with nothing held has changed
    nothing, and will do the same at any later clock reading. *)
Lemma load_if_empty_nothing (now now' : datetime) (w w1 : World) :
  load_if_empty fromisoformat_other now w = (w1, Ok tt) ->
  truthy (releases (state w1)) = false ->
  w1 = w
  /\ forall s', releases s' = releases (state w) ->
               load_if_empty fromisoformat_other now'
                 (mkWorld s' (file w) (started w))
               = (mkWorld s' (file w) (started w), Ok tt).
Proof.
  unfold load_if_empty, MM.bind, MM.get_state, MM.read_file, MM.lift,
    MM.modify_state, MM.ret.
  destruct (truthy (releases (state w))) eqn:Ht; cbn.
  { intros H; inversion H; subst. congruence. }
  destruct (load_sneaker_releases_from_file fromisoformat_other now (file w))
    as [[rel lft] | e] eqn:Hload; cbn; [| discriminate].
  destruct (truthy rel) eqn:Hrel; cbn.
  { intros H; inversion H; subst. cbn. congruence. }
  intros H _. inversion H; subst. split; [reflexivity |].
  intros s' Hs'. cbn [state file started]. rewrite Hs', Ht. cbn.
  destruct (load_now_irrelevant now now' _ _ _ Hload) as [lft' ->]. cbn.
  now rewrite Hrel.
Qed.

(** The whole of [get_sneaker_releases] after a load that did not raise. *)
Lemma get_sneaker_releases_unfold
    (force : bool) (now_load now : datetime) (w w1 : World) :
  load_if_empty fromisoformat_other now_load w = (w1, Ok tt) ->
  get_sneaker_releases fromisoformat_other force now_load now w =
  let s := state w1 in
  match serve_cached force now s with
  | Raise e => (w1, Raise e)
  | Ok true => (w1, Ok (releases s))
  | Ok false =>
      if fetch_in_progress s || fetch_lock s
      then (w1, Ok (or_empty (releases s)))
      else (mkWorld (set_fetch_lock true s) (file w1) (S (started w1)),
            Ok (or_empty (releases s)))
  end.
Proof.
  intros Hl. unfold get_sneaker_releases, MM.bind. rewrite Hl.
  unfold MM.get_state, MM.lift, MM.ret, lock_acquire, MM.thread_start. cbv zeta.
  destruct (serve_cached force now (state w1)) as [[|] | e]; try reflexivity.
  destruct (fetch_in_progress (state w1)); [reflexivity |].
  destruct (fetch_lock (state w1)); reflexivity.
Qed.

(** With a naive timestamp, or none, the freshness test does not raise,
    and it fails exactly when the call is forced, the first-run flag is
    set, no snapshot is held, or the snapshot has aged. *)
Lemma serve_cached_spec (force : bool) (now : datetime) (s : State) :
  last_fetch_time s <> Some Aware ->
  exists b,
    serve_cached force now s = Ok b
    /\ (b = false <->
        force = true \/ first_run s = true \/ truthy (releases s) = false
        \/ aged now s).
Proof.
  intros Hn. unfold serve_cached, aged.
  destruct force; cbn [negb andb].
  { exists false. split; [reflexivity |]. split; auto. }
  destruct (first_run s); cbn [negb andb].
  { exists false. split; [reflexivity |]. split; auto. }
  destruct (truthy (releases s)).
  2: { exists false. split; [reflexivity |]. split; auto. }
  destruct (last_fetch_time s) as [[t |] |]; [| congruence |].
  - cbn [sub_now Res.bind].
    exists (dt_sub now t <? timedelta_hours FETCH_INTERVAL_HOURS).
    split; [reflexivity |]. rewrite Z.ltb_ge. split.
    + intros H. do 3 right. exact H.
    + intros [H | [H | [H | H]]]; try discriminate. exact H.
  - exists false. split; [reflexivity |]. split; auto.
Qed.

(** [get_sneaker_releases] never clears the first-run flag: only
    [should_fetch_new_data] does. *)
Lemma get_sneaker_releases_keeps_first_run
    (force : bool) (now_load now : datetime) (w : World) :
  first_run (state (fst (get_sneaker_releases fromisoformat_other
                           force now_load now w)))
  = first_run (state w).
Proof.
  pose proof (load_if_empty_frame now_load w) as F. cbv zeta in F.
  destruct F as (_ & _ & Hfr & _ & _).
  destruct (load_if_empty fromisoformat_other now_load w) as [w1 [[] | e]] eqn:Hl;
    cbn [fst] in Hfr.
  - rewrite (get_sneaker_releases_unfold force now_load now w w1 Hl). cbv zeta.
    destruct (serve_cached force now (state w1)) as [[|] | e]; try exact Hfr.
    destruct (_ || _); exact Hfr.
  - unfold get_sneaker_releases, MM.bind. rewrite Hl. exact Hfr.
Qed.

(** What an unforced call does whatever the first-run flag.  After a
    load that did not raise, and with a held timestamp that is naive or
    absent, it starts a background task exactly when no refresh is in
    progress, the lock is free, and the flag is set, or no snapshot is
    held, or no timestamp is held, or the age has reached the window.
    The flag is tested here and never cleared
    ([get_sneaker_releases_keeps_first_run]). *)
Lemma get_starts_refresh_cases (now_load now : datetime) (w w1 : World) :
  load_if_empty fromisoformat_other now_load w = (w1, Ok tt) ->
  last_fetch_time (state w1) <> Some Aware ->
  let s := state w1 in
  let out := get_sneaker_releases fromisoformat_other false now_load now w in
  (started (fst out) = S (started w) <->
     fetch_in_progress s = false /\ fetch_lock s = false
     /\ (first_run s = true \/ truthy (releases s) = false \/ aged now s))
  /\ (started (fst out) = started w \/ started (fst out) = S (started w))
  /\ snd out = Ok (or_empty (releases s))
  /\ releases (state (fst out)) = releases s
  /\ last_fetch_time (state (fst out)) = last_fetch_time s.
Proof.
  intros Hl Hn s out.
  pose proof (load_if_empty_frame now_load w) as F. cbv zeta in F.
  rewrite Hl in F. cbn [fst] in F. destruct F as (_ & _ & _ & _ & Hst).
  subst out. rewrite (get_sneaker_releases_unfold false now_load now w w1 Hl).
  cbv zeta. fold s. rewrite <- Hst.
  destruct (serve_cached_spec false now s Hn) as (b & -> & Hb).
  destruct b.
  - assert (Hnot : ~ (first_run s = true \/ truthy (releases s) = false \/ aged now s)).
    { intros H. assert (true = false) by (apply Hb; right; exact H). discriminate. }
    assert (Ht : truthy (releases s) = true).
    { destruct (truthy (releases s)); [reflexivity |]. exfalso. apply Hnot. auto. }
    cbn [fst snd]. split; [split; [lia | intros (_ & _ & H); contradiction] |].
    unfold or_empty. rewrite Ht. repeat split; auto.
  - assert (Hc : first_run s = true \/ truthy (releases s) = false \/ aged now s).
    { destruct Hb as [Hb _]. destruct (Hb eq_refl) as [H | H]; [discriminate | exact H]. }
    destruct (fetch_in_progress s) eqn:Hp, (fetch_lock s) eqn:Hk; cbn;
      (split; [split; [intros H; try lia; auto
                      | intros (? & ? & _); try discriminate; reflexivity] |]);
      repeat split; auto.
Qed.

(** C1 (as amended).  Take a call with [force_refresh = False] made
    either in a process still in its initial state (the first call ever
    made finds it so) or in one whose first-run flag has been cleared,
    after a load that did not raise and with a held timestamp that is
    naive or absent.  The call starts a background task exactly when no
    refresh is in progress, the lock is free, and the process is in its
    initial state, or no snapshot is held, or no timestamp is held, or
    the age of the snapshot has reached the six-hour window.  In the
    initial state it always starts exactly one task.  It never starts
    more than one, and returns the snapshot held at the call (or the
    empty list) while the snapshot and timestamp are still the ones held
    before any refresh ran.  A call made while the flag is set in any
    other state is not covered. *)
Theorem get_triggers_refresh_iff (now_load now : datetime) (w w1 : World) :
  load_if_empty fromisoformat_other now_load w = (w1, Ok tt) ->
  last_fetch_time (state w1) <> Some Aware ->
  state w = initial_state \/ first_run (state w) = false ->
  let s := state w1 in
  let out := get_sneaker_releases fromisoformat_other false now_load now w in
  (started (fst out) = S (started w) <->
     fetch_in_progress s = false /\ fetch_lock s = false
     /\ (state w = initial_state \/ truthy (releases s) = false \/ aged now s))
  /\ (state w = initial_state -> started (fst out) = S (started w))
  /\ (started (fst out) = started w \/ started (fst out) = S (started w))
  /\ snd out = Ok (or_empty (releases s))
  /\ releases (state (fst out)) = releases s
  /\ last_fetch_time (state (fst out)) = last_fetch_time s.
Proof.
  intros Hl Hn Hdom s out.
  destruct (get_starts_refresh_cases now_load now w w1 Hl Hn)
    as (Hiff & Hone & Hret & Hrel & Hlft).
  cbv zeta in Hiff, Hone, Hret, Hrel, Hlft. fold s out in Hiff, Hone, Hret, Hrel, Hlft.
  pose proof (load_if_empty_frame now_load w) as F. cbv zeta in F.
  rewrite Hl in F. cbn [fst] in F. fold s in F.
  destruct F as (Hk & Hp & Hfr & _ & _).
  assert (Hflag : first_run s = true <-> state w = initial_state).
  { rewrite Hfr. split.
    - intros H. destruct Hdom as [Hi | Hc]; [exact Hi | congruence].
    - intros ->. reflexivity. }
  assert (Hiff' : started (fst out) = S (started w) <->
            fetch_in_progress s = false /\ fetch_lock s = false
            /\ (state w = initial_state \/ truthy (releases s) = false
                \/ aged now s)).
  { rewrite Hiff, Hflag. reflexivity. }
  split; [exact Hiff' |]. split; [| repeat split; assumption].
  intros Hi. apply Hiff'. rewrite Hp, Hk, Hi. repeat split. now left.
Qed.

(** C6 (code at the failing input).  In a fresh process whose file
    holds the JSON document [[]], both public operations raise
    [AttributeError] to their caller: the load inside them raises and
    neither wraps it in a [try]. *)
Theorem public_operations_raise_on_wrong_shape
    (force : bool) (days : Z) (now_load now : datetime) (clk : nat -> datetime) :
  snd (get_sneaker_releases fromisoformat_other force now_load now
         world_wrong_shape)
  = Raise AttributeError
  /\ snd (get_upcoming_sneaker_releases fromisoformat_other strptime days clk
            world_wrong_shape)
     = Raise AttributeError.
Proof. split; reflexivity. Qed.

(** ** The query layer *)

(** On a dict, one turn of the loop never raises and decides as the
    specification's filter does. *)
Lemma upcoming_step_object (today end_date : date) (release : json) :
  is_object release = true ->
  upcoming_step strptime today end_date release
  = Ok (wanted strptime today end_date release).
Proof.
  destruct release as [| | | | | kv]; try discriminate. intros _.
  unfold upcoming_step, wanted, json_trending, ResTry.try_except.
  cbn [py_get Res.bind].
  destruct (truthy (match assoc "is_trending" kv with
                    | Some x => x | None => JBool false end));
    [| reflexivity].
  cbn [negb andb].
  destruct (parse_date strptime _) as [[d |] | e]; reflexivity.
Qed.

Lemma upcoming_loop_objects (today end_date : date) (rs : list json) :
  forallb is_object rs = true ->
  upcoming_loop strptime today end_date rs
  = Ok (filter (wanted strptime today end_date) rs).
Proof.
  induction rs as [| r rs IH]; [reflexivity |].
  cbn [forallb]. intros H. apply andb_prop in H. destruct H as [Hr Hrs].
  cbn [upcoming_loop filter].
  rewrite (upcoming_step_object today end_date r Hr), (IH Hrs). reflexivity.
Qed.

(** A non-trending item and an item whose date does not parse are left
    out. *)
Lemma wanted_needs_trending_and_date (today end_date : date) (release : json) :
  wanted strptime today end_date release = true ->
  json_trending release = true
  /\ exists date_str d,
       py_get release "release_date" (JStr "") = Ok date_str
       /\ parse_date strptime date_str = Ok (Some d)
       /\ today <= d <= end_date.
Proof.
  unfold wanted. intros H. apply andb_prop in H. destruct H as [Ht Hd].
  split; [exact Ht |].
  destruct (py_get release "release_date" (JStr "")) as [ds | e];
    [| discriminate].
  destruct (parse_date strptime ds) as [[d |] | e] eqn:Hp; try discriminate.
  exists ds, d. apply andb_prop in Hd. destruct Hd as [H1 H2].
  apply Z.leb_le in H1, H2. repeat split; assumption || reflexivity.
Qed.

(** The steps of [get_upcoming_sneaker_releases] before the filter
    leave a held snapshot in place and, with a naive timestamp, do not
    raise. *)
Lemma upcoming_prologue_held (clk : nat -> datetime) (w : World) :
  truthy (releases (state w)) = true ->
  last_fetch_time (state w) <> Some Aware ->
  exists w2,
    (stale <- should_fetch_new_data (clk 1%nat) ;;
     (if stale : bool then
        _ <- get_sneaker_releases fromisoformat_other false
               (clk 2%nat) (clk 3%nat) ;;
        MM.ret tt
      else MM.ret tt))%M w = (w2, Ok tt)
    /\ releases (state w2) = releases (state w).
Proof.
  intros Ht Hn.
  unfold should_fetch_new_data, MM.bind, MM.get_state, MM.modify_state,
    MM.lift, MM.ret.
  assert (G : forall w0,
             truthy (releases (state w0)) = true ->
             last_fetch_time (state w0) <> Some Aware ->
             exists w2,
               (let (w', r) := get_sneaker_releases fromisoformat_other false
                                 (clk 2%nat) (clk 3%nat) w0 in
                match r with
                | Ok _ => (w', Ok tt)
                | Raise e => (w', Raise e)
                end) = (w2, Ok tt)
               /\ releases (state w2) = releases (state w0)).
  { intros w0 H0 Hn0.
    rewrite (get_sneaker_releases_unfold false _ _ w0 w0 (load_if_empty_held _ w0 H0)).
    cbv zeta.
    destruct (serve_cached_spec false (clk 3%nat) (state w0) Hn0) as (b & -> & _).
    destruct b; [eexists; split; reflexivity |].
    destruct (_ || _); eexists; split; reflexivity. }
  destruct (first_run (state w)).
  - destruct (G (mkWorld (set_first_run false (state w)) (file w) (started w)) Ht Hn)
      as (w2 & H1 & H2).
    exists w2. split; [exact H1 | exact H2].
  - destruct (last_fetch_time (state w)) as [[t |] |] eqn:Hlft; [| congruence |].
    + cbn [sub_now]. destruct (_ <? _).
      * apply G; [exact Ht | rewrite Hlft; discriminate].
      * eexists; split; reflexivity.
    + apply G; [exact Ht | rewrite Hlft; discriminate].
Qed.

(** The same steps when, after the first load, nothing is held: the
    nested load finds nothing either, and nothing is held afterwards. *)
Lemma upcoming_prologue_empty (clk : nat -> datetime) (w w1 : World) :
  load_if_empty fromisoformat_other (clk 0%nat) w = (w1, Ok tt) ->
  truthy (releases (state w1)) = false ->
  last_fetch_time (state w1) <> Some Aware ->
  exists w2,
    (stale <- should_fetch_new_data (clk 1%nat) ;;
     (if stale : bool then
        _ <- get_sneaker_releases fromisoformat_other false
               (clk 2%nat) (clk 3%nat) ;;
        MM.ret tt
      else MM.ret tt))%M w1 = (w2, Ok tt)
    /\ releases (state w2) = releases (state w1).
Proof.
  intros Hl Hf Hn.
  destruct (load_if_empty_nothing (clk 0%nat) (clk 2%nat) w w1 Hl Hf) as [-> Hagain].
  unfold should_fetch_new_data, MM.bind, MM.get_state, MM.modify_state,
    MM.lift, MM.ret.
  assert (G : forall s0,
             releases s0 = releases (state w) ->
             exists w2,
               (let (w', r) := get_sneaker_releases fromisoformat_other false
                                 (clk 2%nat) (clk 3%nat)
                                 (mkWorld s0 (file w) (started w)) in
                match r with
                | Ok _ => (w', Ok tt)
                | Raise e => (w', Raise e)
                end) = (w2, Ok tt)
               /\ releases (state w2) = releases (state w)).
  { intros s0 Hs0.
    rewrite (get_sneaker_releases_unfold false _ _ _ _ (Hagain s0 Hs0)).
    cbv zeta. cbn [state file started].
    unfold serve_cached. rewrite Hs0, Hf.
    rewrite !andb_false_r.
    destruct (_ || _); eexists; split; reflexivity || exact Hs0. }
  destruct w as [s f n]. cbn [state file started] in *.
  destruct (first_run s) eqn:Hfr.
  - apply (G (set_first_run false s)). reflexivity.
  - destruct (last_fetch_time s) as [[t |] |] eqn:Hlft; [| congruence |].
    + cbn [sub_now]. destruct (_ <? _).
      * apply (G s). reflexivity.
      * eexists; split; reflexivity.
    + apply (G s). reflexivity.
Qed.

(** C9 (as amended).  When, after the load prologue, a list of dicts is
    held with a naive timestamp (or none) and [today + days] is a
    representable date, the call returns exactly the held items whose
    trending flag is set and whose raw date parses, through
    [parse_date], to a date in [[today, today + days]], both ends
    included, [today] being the date of the clock at the call. *)
Theorem upcoming_is_the_filter
    (days : Z) (clk : nat -> datetime) (w w1 : World)
    (items : list json) (end_date : date) :
  load_if_empty fromisoformat_other (clk 0%nat) w = (w1, Ok tt) ->
  releases (state w1) = JArr items ->
  forallb is_object items = true ->
  last_fetch_time (state w1) <> Some Aware ->
  date_add_days (date_of (clk 4%nat)) days = Ok end_date ->
  snd (get_upcoming_sneaker_releases fromisoformat_other strptime days clk w)
  = Ok (filter (wanted strptime (date_of (clk 4%nat)) end_date) items)
  /\ end_date = date_of (clk 4%nat) + days.
Proof.
  intros Hl Hrel Hobj Hn Hadd.
  split.
  2: { unfold date_add_days in Hadd.
       destruct (Z.abs days <=? 999999999); [| discriminate].
       destruct (_ && _); inversion Hadd. reflexivity. }
  assert (Hp : exists w2,
             (stale <- should_fetch_new_data (clk 1%nat) ;;
              (if stale : bool then
                 _ <- get_sneaker_releases fromisoformat_other false
                        (clk 2%nat) (clk 3%nat) ;;
                 MM.ret tt
               else MM.ret tt))%M w1 = (w2, Ok tt)
             /\ releases (state w2) = releases (state w1)).
  { destruct (truthy (releases (state w1))) eqn:Ht.
    - apply upcoming_prologue_held; assumption.
    - eapply upcoming_prologue_empty; eassumption. }
  destruct Hp as (w2 & Hp & Hkeep).
  unfold get_upcoming_sneaker_releases.
  unfold MM.bind at 1. rewrite Hl.
  unfold MM.bind at 1. unfold MM.bind at 1 in Hp.
  destruct (should_fetch_new_data (clk 1%nat) w1) as [w' [stale | e]];
    [| discriminate].
  unfold MM.bind at 1. rewrite Hp.
  unfold MM.bind, MM.get_state, MM.lift, MM.ret.
  rewrite Hkeep, Hrel.
  destruct items as [| i items]; [reflexivity |].
  cbn [truthy negb py_iter].
  rewrite Hadd. rewrite (upcoming_loop_objects _ _ _ Hobj). reflexivity.
Qed.

End CoordinatorFacts.

Lemma get_triggers_refresh_iff_witness :
  let s := state world_idle in
  let out := get_sneaker_releases fromisoformat_strict false noon seven_pm
               world_idle in
  (started (fst out) = S (started world_idle) <->
     fetch_in_progress s = false /\ fetch_lock s = false
     /\ (state world_idle = initial_state \/ truthy (releases s) = false
         \/ aged seven_pm s))
  /\ (state world_idle = initial_state ->
      started (fst out) = S (started world_idle))
  /\ (started (fst out) = started world_idle
      \/ started (fst out) = S (started world_idle))
  /\ snd out = Ok (or_empty (releases s))
  /\ releases (state (fst out)) = releases s
  /\ last_fetch_time (state (fst out)) = last_fetch_time s.
Proof.
  apply (get_triggers_refresh_iff fromisoformat_strict noon seven_pm
           world_idle world_idle).
  - reflexivity.
  - discriminate.
  - right. reflexivity.
Defined.

(** C1 (counterexample).  The snapshot is seven hours old, past the
    six-hour window, and a refresh is running: the call starts no task.
    So "a refresh is triggered iff the age is at least the window or
    this is the first call" fails from right to left. *)
Lemma get_stale_but_busy_starts_nothing :
  let out := get_sneaker_releases fromisoformat_strict false noon seven_pm
               world_busy in
  timedelta_hours FETCH_INTERVAL_HOURS <= dt_sub seven_pm noon
  /\ started (fst out) = started world_busy
  /\ ~ (started (fst out) = S (started world_busy) <->
        (timedelta_hours FETCH_INTERVAL_HOURS <= dt_sub seven_pm noon
         \/ first_run (state world_busy) = true)).
Proof.
  cbv zeta. split; [vm_compute; discriminate |]. split; [reflexivity |].
  intros [_ H].
  assert (E : started (fst (get_sneaker_releases fromisoformat_strict false
                              noon seven_pm world_busy))
              = S (started world_busy)).
  { apply H. left. vm_compute. discriminate. }
  vm_compute in E. discriminate.
Qed.

(** At an age of exactly six hours the snapshot is no longer served
    from the cache: the test is [age < window]. *)
Lemma get_at_exactly_six_hours_starts_refresh :
  dt_sub six_pm noon = timedelta_hours FETCH_INTERVAL_HOURS
  /\ started (fst (get_sneaker_releases fromisoformat_strict false noon six_pm
                     world_idle)) = 1%nat.
Proof. split; reflexivity. Qed.

(** In a fresh process, a first call starts a refresh; once that refresh
    has completed and stored a fresh snapshot, a second call one second
    later starts another one, because the first-run flag is still set:
    [get_sneaker_releases] tests the flag and leaves the clearing to
    [should_fetch_new_data], which a direct call never reaches.  So the
    first-call refresh is not started once only. *)
Lemma first_run_refresh_repeats :
  let w1 := fst (get_sneaker_releases fromisoformat_strict false noon noon
                   world_fresh) in
  let w2 := fst (run_thread refresh_one_page w1) in
  let w3 := fst (get_sneaker_releases fromisoformat_strict false noon
                   (mkDT 2024 6 1 12 0 1 0) w2) in
  started w1 = 1%nat
  /\ started w2 = 0%nat
  /\ last_fetch_time (state w2) = Some (Naive noon)
  /\ truthy (releases (state w2)) = true
  /\ started w3 = 1%nat.
Proof. cbv zeta. repeat split; vm_compute; reflexivity. Qed.

(** A stored timestamp that carries a UTC offset makes the freshness
    test itself raise. *)
Lemma get_raises_on_aware_timestamp (now_load now : datetime) :
  snd (get_sneaker_releases fromisoformat_strict false now_load now world_aware)
  = Raise TypeError.
Proof. reflexivity. Qed.

Lemma upcoming_is_the_filter_witness :
  snd (get_upcoming_sneaker_releases fromisoformat_strict strptime_ymd 30
         (fun _ => noon) world_idle)
  = Ok (filter (wanted strptime_ymd (date_of noon) (date_of noon + 30))
               (map item_json june_items))
  /\ date_of noon + 30 = date_of noon + 30.
Proof.
  apply (upcoming_is_the_filter fromisoformat_strict strptime_ymd 30
           (fun _ => noon) world_idle world_idle (map item_json june_items)
           (date_of noon + 30)).
  - reflexivity.
  - reflexivity.
  - reflexivity.
  - discriminate.
  - reflexivity.
Defined.

(** On 2024-06-01 with [days = 30]: the item dated 2024-06-01 and the
    one dated 2024-07-01 (the last day of the window) are returned; the
    non-trending, the unparseable and the undated ones are not. *)
Example upcoming_june :
  snd (get_upcoming_sneaker_releases fromisoformat_strict strptime_ymd 30
         (fun _ => noon) world_idle)
  = Ok (map item_json
          [mkItem (Some "A") (Some "2024-06-01") (Some "$100") None None true;
           mkItem (Some "C") (Some "2024-07-01") (Some "$100") None None true]).
Proof. reflexivity. Qed.

(** C9 (counterexample).  With [days = 10000000] the end of the window
    lies after 9999-12-31 and the call raises [OverflowError]; with a
    held list whose item is a string the call raises [AttributeError];
    with a held timestamp that carries a UTC offset the staleness test
    raises [TypeError].  None of the calls returns a list. *)
Lemma upcoming_raises :
  snd (get_upcoming_sneaker_releases fromisoformat_strict strptime_ymd 10000000
         (fun _ => noon) world_idle)
  = Raise OverflowError
  /\ snd (get_upcoming_sneaker_releases fromisoformat_strict strptime_ymd 7
            (fun _ => noon) world_string_item)
     = Raise AttributeError
  /\ snd (get_upcoming_sneaker_releases fromisoformat_strict strptime_ymd 7
            (fun _ => noon) world_aware)
     = Raise TypeError.
Proof. repeat split. Qed.
(** ** Single flight *)

(** Case analysis on which thread took the step. *)
Ltac step_cases H :=
  destruct H as
    [w cs ts f t1 t2
    | w cs1 c cs2 ts pc' w' Hpc Hs
    | w cs1 c cs2 ts pc' w' r Hpc Hs
    | w cs ts1 r pc ts2 pc' w' Hs].

Section ThreadFacts.

Variable fromisoformat_other : string -> result timestamp.


Lemma count_split {A} (p : A -> bool) (l1 l2 : list A) (x : A) :
  List.length (filter p (l1 ++ x :: l2))
  = (List.length (filter p l1) + (if p x then 1 else 0)
     + List.length (filter p l2))%nat.
Proof.
  rewrite filter_app, length_app. cbn [filter].
  destruct (p x); cbn [List.length]; lia.
Qed.

(** What a caller's step does to the lock. *)
Lemma caller_step_lock (c : Caller) (w w' : World) (pc' : caller_pc) :
  caller_step fromisoformat_other c w = (pc', w') ->
  (cpc c = AtAcquire /\ fetch_lock (state w) = false
   /\ pc' = AtStart /\ fetch_lock (state w') = true)
  \/ (pc' <> AtStart /\ fetch_lock (state w') = fetch_lock (state w)).
Proof.
  unfold caller_step. destruct (cpc c) eqn:Hpc; intros H.
  - right.
    pose proof (load_if_empty_frame fromisoformat_other (now_load c) w) as F.
    cbv zeta in F. destruct F as (Hk & _).
    destruct (load_if_empty fromisoformat_other (now_load c) w) as [w1 [[] | e]];
      inversion H; subst; cbn [fst] in Hk; split; [discriminate | exact Hk | discriminate | exact Hk].
  - right.
    destruct (serve_cached (force_refresh c) (now_test c) (state w)) as [[|] | e];
      inversion H; subst; split; discriminate || reflexivity.
  - right. inversion H; subst. split; [discriminate | reflexivity].
  - right. destruct (fetch_in_progress (state w)); inversion H; subst; split;
      [discriminate | reflexivity | discriminate | reflexivity].
  - unfold lock_acquire in H. destruct (fetch_lock (state w)) eqn:Hk.
    + right. inversion H; subst. split; [discriminate | exact Hk].
    + left. inversion H; subst. repeat split.
  - right. inversion H; subst. split; [discriminate | reflexivity].
  - right. inversion H; subst. split; [discriminate | reflexivity].
  - right. inversion H; subst. split; [discriminate | reflexivity].
  - right. inversion H; subst. split; [discriminate | reflexivity].
Qed.

(** What a task's step does to the lock. *)
Lemma task_step_lock (r : Refresh) (pc pc' : task_pc) (w w' : World) :
  task_step r pc w = (pc', w') ->
  match pc with
  | TRelease => pc' = TDone /\ fetch_lock (state w') = false
  | TDone => pc' = TDone /\ w' = w
  | _ => pc' <> TDone /\ fetch_lock (state w') = fetch_lock (state w)
  end.
Proof.
  destruct pc; cbn [task_step]; intros H.
  - inversion H; subst. split; [discriminate | reflexivity].
  - destruct (fetch_sneaker_data (crawl r)) as [[| i l] | e];
      inversion H; subst; split; discriminate || reflexivity.
  - rewrite save_outcome in H.
    destruct (write r); inversion H; subst; split; discriminate || reflexivity.
  - inversion H; subst. split; [discriminate | reflexivity].
  - inversion H; subst. split; [discriminate | reflexivity].
  - inversion H; subst. split; [discriminate | reflexivity].
  - inversion H; subst. split; [reflexivity |].
    unfold lock_release. destruct (fetch_lock (state w)) eqn:Hk; cbn; auto.
  - inversion H; subst. split; reflexivity.
Qed.

(** The invariant: the lock is held exactly when one thread is entitled
    to it, and never more than one is. *)
Lemma step_keeps_holders (cfg cfg' : Config) :
  step fromisoformat_other cfg cfg' ->
  holders cfg = lock_count (world cfg) ->
  holders cfg' = lock_count (world cfg').
Proof.
  unfold holders, active_crawls, lock_count.
  intros Hstep. step_cases Hstep;
    cbn [world callers tasks]; intros Inv.
  - rewrite filter_app, length_app. cbn. lia.
  - rewrite count_split in *.
    assert (Hc : is_at_start c = false).
    { unfold is_at_start. destruct (cpc c); congruence. }
    rewrite Hc in Inv.
    destruct (caller_step_lock c w w' pc' Hs)
      as [(_ & Hfree & -> & Hheld) | (Hne & Hsame)].
    + rewrite Hfree in Inv. rewrite Hheld. cbn. lia.
    + assert (Hc' : is_at_start (at_pc c pc') = false).
      { unfold is_at_start. cbn. destruct pc'; congruence. }
      rewrite Hc', Hsame. exact Inv.
  - rewrite count_split in *.
    assert (Hc : is_at_start c = true).
    { unfold is_at_start. now rewrite Hpc. }
    rewrite Hc in Inv.
    unfold caller_step in Hs. rewrite Hpc in Hs. inversion Hs; subst.
    cbn [is_at_start at_pc cpc MM.thread_start fst state].
    rewrite filter_app, length_app. cbn. lia.
  - rewrite count_split in *.
    pose proof (task_step_lock r pc pc' w w' Hs) as Ht.
    unfold active in *. cbn [snd] in *.
    destruct pc; destruct Ht as [H1 H2];
      try (destruct pc'; [.. | congruence]; rewrite H2; exact Inv).
    + subst pc'. rewrite H2.
      destruct (fetch_lock (state w)); lia.
    + subst. exact Inv.
Qed.

Lemma reachable_holders (cfg : Config) :
  reachable fromisoformat_other cfg -> holders cfg = lock_count (world cfg).
Proof.
  intros (cfg0 & (Hfree & Hcs & Hts) & Hsteps).
  induction Hsteps as [cfg | cfg1 cfg2 cfg3 _ IH Hstep].
  - unfold holders, active_crawls, lock_count. now rewrite Hcs, Hts, Hfree.
  - eapply step_keeps_holders; eauto.
Qed.

Lemma lock_count_le_1 (w : World) : (lock_count w <= 1)%nat.
Proof. unfold lock_count. destruct (fetch_lock (state w)); lia. Qed.

Lemma no_caller_at_start (cs : list Caller) :
  List.length (filter is_at_start cs) = 0%nat ->
  Forall (fun c => cpc c <> AtStart) cs.
Proof.
  induction cs as [| c cs IH]; [constructor |].
  cbn [filter]. unfold is_at_start at 1.
  destruct (cpc c) eqn:Hpc; cbn [List.length]; intros H;
    constructor; try congruence; apply IH; try exact H; discriminate.
Qed.

(** While a refresh is active the lock is held, so a caller that tries
    the lock does not get it and goes on to return the held snapshot. *)
Lemma acquire_fails_while_active (cfg : Config) (c : Caller) :
  reachable fromisoformat_other cfg ->
  active_crawls cfg = 1%nat ->
  cpc c = AtAcquire ->
  caller_step fromisoformat_other c (world cfg) = (AtReturn, world cfg)
  /\ caller_step fromisoformat_other (at_pc c AtReturn) (world cfg)
     = (Returned (or_empty (releases (state (world cfg)))), world cfg).
Proof.
  intros Hr Hact Hpc. pose proof (reachable_holders cfg Hr) as Inv.
  unfold holders, lock_count in Inv.
  destruct (fetch_lock (state (world cfg))) eqn:Hk; [| lia].
  split; [| reflexivity].
  unfold caller_step, lock_acquire. now rewrite Hpc, Hk.
Qed.

(** C4.  In every reachable configuration at most one refresh is
    active.  While one is active, no step of any thread starts another
    task and no caller gets past the lock; a caller that tries the lock
    fails to take it, changes nothing, and goes on to return the
    snapshot then held (or the empty list). *)
Theorem single_flight (cfg : Config) :
  reachable fromisoformat_other cfg ->
  (active_crawls cfg <= 1)%nat
  /\ (forall cfg',
        active_crawls cfg = 1%nat ->
        step fromisoformat_other cfg cfg' ->
        List.length (tasks cfg') = List.length (tasks cfg)
        /\ (active_crawls cfg' <= 1)%nat
        /\ Forall (fun c => cpc c <> AtStart) (callers cfg'))
  /\ (forall c,
        active_crawls cfg = 1%nat ->
        cpc c = AtAcquire ->
        caller_step fromisoformat_other c (world cfg) = (AtReturn, world cfg)
        /\ caller_step fromisoformat_other (at_pc c AtReturn) (world cfg)
           = (Returned (or_empty (releases (state (world cfg)))), world cfg)).
Proof.
  intros Hr. pose proof (reachable_holders cfg Hr) as Inv.
  pose proof (lock_count_le_1 (world cfg)) as Hle.
  split; [unfold holders in Inv; lia |].
  split; [| intros c Hact Hpc; now apply acquire_fails_while_active].
  intros cfg' Hact Hstep.
  assert (Hr' : reachable fromisoformat_other cfg').
  { destruct Hr as (cfg0 & Hi & Hs). exists cfg0. split; [exact Hi |].
    eapply steps_step; eauto. }
  pose proof (reachable_holders cfg' Hr') as Inv'.
  pose proof (lock_count_le_1 (world cfg')) as Hle'.
  assert (Hnone : List.length (filter is_at_start (callers cfg)) = 0%nat)
    by (unfold holders in Inv; lia).
  assert (Hlen : List.length (tasks cfg') = List.length (tasks cfg)).
  { step_cases Hstep; cbn [tasks callers] in *;
      try reflexivity.
    - exfalso. rewrite count_split in Hnone. unfold is_at_start in Hnone.
      rewrite Hpc in Hnone. lia.
    - now rewrite !length_app. }
  split; [exact Hlen |].
  split; [unfold holders in Inv'; lia |].
  apply no_caller_at_start.
  step_cases Hstep;
    unfold holders, active_crawls in *; cbn [tasks callers] in *.
  - rewrite filter_app, length_app, Hnone. reflexivity.
  - lia.
  - exfalso. rewrite count_split in Hnone. unfold is_at_start in Hnone.
    rewrite Hpc in Hnone. lia.
  - exact Hnone.
Qed.

(** The threads agree with the sequential functions: a caller run alone
    is [get_sneaker_releases], a task run alone is [fetch_thread]. *)
Lemma caller_run_is_get (c : Caller) (w : World) :
  cpc c = AtLoad ->
  caller_run fromisoformat_other 6 c w =
  let (w', r) :=
    get_sneaker_releases fromisoformat_other (force_refresh c) (now_load c) (now_test c) w in
  (match r with Ok v => Returned v | Raise e => Failed e end, w').
Proof.
  intros Hpc. unfold get_sneaker_releases, MM.bind.
  cbn [caller_run]. unfold caller_step at 1. rewrite Hpc.
  destruct (load_if_empty fromisoformat_other (now_load c) w) as [w1 [[] | e]]; [| reflexivity].
  unfold caller_step at 1. cbn [cpc at_pc force_refresh now_test now_load].
  unfold MM.get_state, MM.lift, MM.ret.
  destruct (serve_cached (force_refresh c) (now_test c) (state w1)) as [[|] | e];
    [reflexivity | | reflexivity].
  unfold caller_step at 1. cbn [cpc at_pc].
  destruct (fetch_in_progress (state w1)); [reflexivity |].
  unfold caller_step at 1. cbn [cpc at_pc]. unfold lock_acquire.
  destruct (fetch_lock (state w1)); reflexivity.
Qed.

Lemma steps_cons (a b c : Config) :
  step fromisoformat_other a b -> steps fromisoformat_other b c ->
  steps fromisoformat_other a c.
Proof.
  intros Hab Hbc. induction Hbc as [b | b c d _ IH Hcd].
  - eapply steps_step; [apply steps_refl | exact Hab].
  - eapply steps_step; [apply IH; exact Hab | exact Hcd].
Qed.

End ThreadFacts.

Lemma task_run_is_fetch_thread (r : Refresh) (w : World) :
  task_run 7 r TStart w = (TDone, fst (fetch_thread r w)).
Proof.
  unfold fetch_thread, guarded, fetch_body, MM.try_finally, MM.try_except,
    MM.bind, MM.lift, MM.modify_state, MM.ret.
  cbn [task_run task_step MM.modify_state fst state file started].
  unfold MM.modify_state. cbn [fst].
  destruct (fetch_sneaker_data (crawl r)) as [[| i l] | e].
  - cbn. unfold lock_release. cbn. destruct (fetch_lock (state w)); reflexivity.
  - cbn [task_run task_step]. rewrite !save_outcome.
    destruct (write r); cbn; unfold lock_release; cbn;
      destruct (fetch_lock (state w)); reflexivity.
  - cbn. unfold lock_release. cbn. destruct (fetch_lock (state w)); reflexivity.
Qed.

Lemma config_one_running_reachable :
  reachable fromisoformat_strict config_one_running.
Proof.
  exists config_start. split; [repeat split |].
  eapply steps_cons.
  { apply (step_arrive fromisoformat_strict world_idle [] [] true noon seven_pm). }
  do 4 (eapply steps_cons;
        [eapply (step_caller fromisoformat_strict _ [] _ [] []); [| reflexivity]; discriminate |]).
  eapply steps_cons.
  { eapply (step_spawn fromisoformat_strict _ [] _ [] [] _ _ refresh_one_page); reflexivity. }
  eapply steps_cons.
  { apply (step_arrive fromisoformat_strict _ _ _ true noon seven_pm). }
  apply steps_refl.
Qed.

Lemma single_flight_witness :
  (active_crawls config_one_running <= 1)%nat
  /\ (forall cfg',
        active_crawls config_one_running = 1%nat ->
        step fromisoformat_strict config_one_running cfg' ->
        List.length (tasks cfg') = List.length (tasks config_one_running)
        /\ (active_crawls cfg' <= 1)%nat
        /\ Forall (fun c => cpc c <> AtStart) (callers cfg'))
  /\ (forall c,
        active_crawls config_one_running = 1%nat ->
        cpc c = AtAcquire ->
        caller_step fromisoformat_strict c (world config_one_running)
        = (AtReturn, world config_one_running)
        /\ caller_step fromisoformat_strict (at_pc c AtReturn)
             (world config_one_running)
           = (Returned (or_empty (releases (state (world config_one_running)))),
              world config_one_running)).
Proof.
  apply (single_flight fromisoformat_strict config_one_running).
  exact config_one_running_reachable.
Defined.

(** * Further properties of the module *)

(** ** The crawl *)

(** X1.  [fetch_sneaker_data] raises exactly when creating the scraper
    raises, and then with that exception; whatever the pages hold, once
    the scraper exists the function returns a list. *)
Theorem crawl_raises_only_from_scraper (c : Crawl) :
  (forall e, fetch_sneaker_data c = Raise e <-> create_scraper c = Raise e)
  /\ (create_scraper c = Ok tt -> exists s, fetch_sneaker_data c = Ok s).
Proof.
  assert (Hok : create_scraper c = Ok tt -> exists s, fetch_sneaker_data c = Ok s).
  { intros Hc. rewrite (fetch_sneaker_data_unfold c Hc).
    destruct (extend_until_empty (pages_of c)) as [| i l]; [eexists; reflexivity |].
    destruct (sort_by_release_date (i :: l)); eexists; reflexivity. }
  split; [| exact Hok].
  intros e. destruct (create_scraper c) as [[] | e'] eqn:Hc.
  - destruct (Hok eq_refl) as [s Hs]. rewrite Hs. split; discriminate.
  - unfold fetch_sneaker_data. rewrite Hc. cbn [Res.bind].
    split; intros H; inversion H; reflexivity.
Qed.

Lemma sorted_singleton (i : Item) : Sorted date_le [i].
Proof. repeat constructor. Qed.

(** X2.  A list returned by the crawl is in ascending order of the raw
    date string; it is empty or a rearrangement of the items of the
    pages before the first empty page, with items of equal date in page
    order; and when it has two or more items each of them has a date. *)
Theorem crawl_result_shape (c : Crawl) (s : list Item) :
  fetch_sneaker_data c = Ok s ->
  Sorted date_le s
  /\ (s = []
      \/ (Permutation
            (List.concat (firstn (first_empty (pages_of c)) (pages_of c))) s
          /\ forall k,
               filter (dated k) s
               = filter (dated k)
                   (List.concat (firstn (first_empty (pages_of c)) (pages_of c)))))
  /\ ((2 <= List.length s)%nat -> forallb has_date s = true).
Proof.
  intros Hs.
  assert (Hc : create_scraper c = Ok tt).
  { destruct (create_scraper c) as [[] | e] eqn:Hc; [reflexivity |].
    unfold fetch_sneaker_data in Hs. rewrite Hc in Hs. discriminate. }
  rewrite (fetch_sneaker_data_unfold c Hc) in Hs.
  rewrite <- extend_until_empty_firstn.
  destruct (extend_until_empty (pages_of c)) as [| i l] eqn:E.
  { inversion Hs; subst. split; [constructor |]. split; [now left |].
    cbn. lia. }
  destruct (sort_by_release_date (i :: l)) as [s' | e] eqn:Hsort.
  2: { inversion Hs; subst. split; [constructor |]. split; [now left |].
       cbn. lia. }
  inversion Hs; subst s'. clear Hs.
  pose proof (sort_perm _ _ Hsort) as Hp.
  destruct l as [| j l].
  - cbn in Hsort. inversion Hsort; subst.
    split; [apply sorted_singleton |]. split; [right; split; auto |].
    cbn. lia.
  - assert (Hall : forallb has_date (i :: j :: l) = true).
    { apply (sort_ok_dates _ s Hsort). cbn. lia. }
    destruct (sort_by_release_date_ok _ Hall) as (s0 & Hs0 & _ & Hsorted & Hstable).
    rewrite Hsort in Hs0. inversion Hs0; subst s0.
    split; [exact Hsorted |]. split; [right; split; assumption |].
    intros _. rewrite forallb_forall in *. intros x Hx. apply Hall.
    eapply Permutation_in; [apply Permutation_sym; exact Hp | exact Hx].
Qed.

Lemma crawl_result_shape_witness :
  let c := mkCrawl (Ok tt) site_one_page [] in
  let s := [parse_sneaker_item (elem_dated "2024-06-01")] in
  Sorted date_le s
  /\ (s = []
      \/ (Permutation
            (List.concat (firstn (first_empty (pages_of c)) (pages_of c))) s
          /\ forall k,
               filter (dated k) s
               = filter (dated k)
                   (List.concat (firstn (first_empty (pages_of c)) (pages_of c)))))
  /\ ((2 <= List.length s)%nat -> forallb has_date s = true).
Proof.
  intros c s. apply (crawl_result_shape c s). reflexivity.
Defined.

(** X3.  When page 1 yields nothing (not found, no items, any failure
    of the request) the crawl returns the empty list, whatever the
    other pages hold. *)
Theorem crawl_empty_first_page (c : Crawl) :
  create_scraper c = Ok tt ->
  fetch_page (site c) 1 = [] ->
  fetch_sneaker_data c = Ok [].
Proof.
  intros Hc H1. rewrite (fetch_sneaker_data_unfold c Hc).
  unfold pages_of, MAX_PAGES. cbn [seq map]. rewrite H1. reflexivity.
Qed.

Lemma crawl_empty_first_page_witness :
  fetch_sneaker_data
    (mkCrawl (Ok tt)
       (fun p => match p with
                 | 1%nat => RequestFails
                 | _ => Status 200 [elem_dated "2024-06-01"]
                 end) [])
  = Ok [].
Proof.
  apply (crawl_empty_first_page
           (mkCrawl (Ok tt)
              (fun p => match p with
                        | 1%nat => RequestFails
                        | _ => Status 200 [elem_dated "2024-06-01"]
                        end) [])); reflexivity.
Defined.

(** X4.  The crawl depends on the site only through pages 1 to
    [MAX_PAGES], and not at all on the order in which the pool
    completes the fetches: two crawls whose sites answer alike on
    those pages return the same result. *)
Theorem crawl_reads_pages_1_to_max (c c' : Crawl) :
  create_scraper c = create_scraper c' ->
  (forall p, (1 <= p <= MAX_PAGES)%nat -> site c p = site c' p) ->
  fetch_sneaker_data c = fetch_sneaker_data c'.
Proof.
  intros Hc Hsite. unfold fetch_sneaker_data. rewrite Hc.
  rewrite !executor_map_in_order.
  assert (E : map (fetch_page (site c)) (seq 1 MAX_PAGES)
              = map (fetch_page (site c')) (seq 1 MAX_PAGES)).
  { apply map_ext_in. intros p Hp. apply in_seq in Hp.
    unfold fetch_page. rewrite (Hsite p) by lia. reflexivity. }
  rewrite E. reflexivity.
Qed.

Lemma crawl_reads_pages_1_to_max_witness :
  fetch_sneaker_data (mkCrawl (Ok tt) site_one_page [3; 1; 2]%nat)
  = fetch_sneaker_data
      (mkCrawl (Ok tt)
         (fun p => if (p <=? 10)%nat then site_one_page p
                   else Status 200 [elem_undated; elem_undated])
         [7; 7; 0]%nat).
Proof.
  apply (crawl_reads_pages_1_to_max
           (mkCrawl (Ok tt) site_one_page [3; 1; 2]%nat)
           (mkCrawl (Ok tt)
              (fun p => if (p <=? 10)%nat then site_one_page p
                        else Status 200 [elem_undated; elem_undated])
              [7; 7; 0]%nat)).
  - reflexivity.
  - intros p Hp. cbn [site]. unfold MAX_PAGES in Hp.
    destruct (Nat.leb_spec p 10); [reflexivity | lia].
Defined.

(** ** The file store and the background task *)

(** What one run of the task does to the file, the first-run flag and
    the count of started threads. *)
Lemma fetch_thread_file (r : Refresh) (w : World) :
  file (fst (fetch_thread r w))
  = match fetch_sneaker_data (crawl r), write r with
    | Ok (i :: l), WriteOk => Document (document (i :: l) (now_save r))
    | Ok (_ :: _), WriteFails => NotJson
    | _, _ => file w
    end
  /\ first_run (state (fst (fetch_thread r w))) = first_run (state w)
  /\ started (fst (fetch_thread r w)) = started w.
Proof.
  unfold fetch_thread, guarded, fetch_body, MM.try_finally, MM.try_except,
    MM.bind, MM.lift, MM.modify_state, MM.ret, lock_release.
  cbn [state file started].
  destruct (fetch_sneaker_data (crawl r)) as [[| i l] | e].
  - cbn. destruct (fetch_lock (state w)); cbn; repeat split.
  - rewrite save_outcome.
    destruct (write r); cbn; destruct (fetch_lock (state w)); cbn; repeat split.
  - cbn. destruct (fetch_lock (state w)); cbn; repeat split.
Qed.

(** X5.  A run of the background task whose crawl raised or returned
    nothing leaves the file as it was; and no run ever changes the
    first-run flag. *)
Theorem failed_refresh_keeps_file (r : Refresh) (w : World) :
  (match fetch_sneaker_data (crawl r) with
   | Ok (_ :: _) => True
   | Ok [] | Raise _ => file (fst (fetch_thread r w)) = file w
   end)
  /\ first_run (state (fst (fetch_thread r w))) = first_run (state w).
Proof.
  destruct (fetch_thread_file r w) as (Hf & Hfr & _).
  split; [| exact Hfr].
  destruct (fetch_sneaker_data (crawl r)) as [[| i l] | e]; auto.
Qed.

Section StoreMore.

Variable fromisoformat_other : string -> result timestamp.

(** A stored timestamp that does not parse is replaced by the clock
    reading of the load. *)
Lemma load_bad_stamp (now : datetime) (kv : list (string * json))
    (rel : json) (s : string) (e : exn) :
  assoc "releases" kv = Some rel ->
  is_ok (py_len rel) = true ->
  assoc "last_updated" kv = Some (JStr s) ->
  s <> "" ->
  fromisoformat fromisoformat_other s = Raise e ->
  isinstance e ValueErrorC = true ->
  load_sneaker_releases_from_file fromisoformat_other now (Document (JObj kv))
  = Ok (rel, Some (Naive now)).
Proof.
  intros Hrel Hlen Hlu Hs Hparse He.
  unfold load_sneaker_releases_from_file.
  cbn [exists_file negb read_json Res.bind py_get]. rewrite Hrel, Hlu.
  cbn [Res.bind]. unfold parse_last_updated.
  assert (Ht : truthy (JStr s) = true).
  { cbn. destruct (String.eqb_spec s ""); [contradiction | reflexivity]. }
  rewrite Ht, Hparse. unfold ResTry.try_except at 2. cbn [Res.bind existsb].
  rewrite He. cbn [orb Res.bind].
  destruct (py_len rel); [reflexivity | discriminate].
Qed.

(** X6.  When the file holds a dict whose [last_updated] is a text that
    [fromisoformat] rejects with a [ValueError], the load returns the
    stored releases together with the current clock reading as their
    fetch time. *)
Theorem load_unparseable_stamp_is_now (now : datetime)
    (kv : list (string * json)) (rel : json) (s : string) (e : exn) :
  assoc "releases" kv = Some rel ->
  is_ok (py_len rel) = true ->
  assoc "last_updated" kv = Some (JStr s) ->
  s <> "" ->
  fromisoformat fromisoformat_other s = Raise e ->
  isinstance e ValueErrorC = true ->
  load_sneaker_releases_from_file fromisoformat_other now (Document (JObj kv))
  = Ok (rel, Some (Naive now)).
Proof. apply load_bad_stamp. Qed.

(** X7.  A stored timestamp that does not parse makes old data look
    fresh: in a process past its
    first run with nothing in memory, a call that is not forced adopts
    the stored releases with the time of the load as their fetch time,
    returns them, and starts no refresh. *)
Theorem unparseable_stamp_serves_without_refresh
    (now_load now : datetime) (w : World)
    (kv : list (string * json)) (rel : json) (s : string) (e : exn) :
  truthy (releases (state w)) = false ->
  first_run (state w) = false ->
  file w = Document (JObj kv) ->
  assoc "releases" kv = Some rel ->
  truthy rel = true ->
  is_ok (py_len rel) = true ->
  assoc "last_updated" kv = Some (JStr s) ->
  s <> "" ->
  fromisoformat fromisoformat_other s = Raise e ->
  isinstance e ValueErrorC = true ->
  dt_sub now now_load < timedelta_hours FETCH_INTERVAL_HOURS ->
  let out := get_sneaker_releases fromisoformat_other false now_load now w in
  snd out = Ok rel
  /\ started (fst out) = started w
  /\ releases (state (fst out)) = rel
  /\ last_fetch_time (state (fst out)) = Some (Naive now_load)
  /\ fetch_lock (state (fst out)) = fetch_lock (state w).
Proof.
  intros Hempty Hfr Hfile Hrel Htr Hlen Hlu Hs Hparse He Hage.
  pose proof (load_bad_stamp now_load kv rel s e Hrel Hlen Hlu Hs Hparse He) as Hload.
  destruct w as [st f n]. cbn [state file started] in *. subst f.
  assert (Hl : load_if_empty fromisoformat_other now_load
                 (mkWorld st (Document (JObj kv)) n)
               = (mkWorld (set_last_fetch_time (Some (Naive now_load))
                             (set_releases rel st))
                          (Document (JObj kv)) n, Ok tt)).
  { unfold load_if_empty, MM.bind, MM.get_state, MM.read_file, MM.lift,
      MM.modify_state, MM.ret.
    cbn [state file started]. rewrite Hempty. cbn [negb].
    cbn [state file started]. rewrite Hload.
    cbn [fst snd]. rewrite Htr. reflexivity. }
  cbv zeta. rewrite (get_sneaker_releases_unfold _ false _ _ _ _ Hl).
  cbv zeta. unfold serve_cached.
  cbn [state set_last_fetch_time set_releases releases first_run last_fetch_time
       negb andb sub_now Res.bind].
  rewrite Hfr, Htr. cbn [negb andb].
  apply Z.ltb_lt in Hage. rewrite Hage. cbn. repeat split.
Qed.

(** X8.  After a refresh whose crawl returned items and whose save
    succeeded, the file and the memory agree: loading the file returns
    the very list now held in memory, stamped with the time of the
    save. *)
Theorem refreshed_file_matches_memory
    (r : Refresh) (w : World) (now' : datetime) (i : Item) (l : list Item) :
  fetch_sneaker_data (crawl r) = Ok (i :: l) ->
  write r = WriteOk ->
  valid_datetime (now_save r) = true ->
  load_sneaker_releases_from_file fromisoformat_other now'
    (file (fst (fetch_thread r w)))
  = Ok (releases (state (fst (fetch_thread r w))), Some (Naive (now_save r))).
Proof.
  intros Hc Hw Hv.
  destruct (fetch_thread_file r w) as (Hf & _ & _).
  pose proof (fetch_thread_snapshot r w) as Hs. cbv zeta in Hs.
  rewrite Hc, Hw in Hf, Hs. destruct Hs as [Hs _].
  rewrite Hf, Hs. apply load_document. exact Hv.
Qed.

(** X9.  A snapshot stored by a successful refresh survives a restart:
    in a fresh process over the file it left, the first call to
    [get_sneaker_releases] returns the stored list, adopts the time of
    the save as its fetch time, and, this being a first run, starts a
    refresh. *)
Theorem restart_serves_stored_snapshot
    (r : Refresh) (w : World) (force : bool) (now_load now : datetime)
    (i : Item) (l : list Item) :
  fetch_sneaker_data (crawl r) = Ok (i :: l) ->
  write r = WriteOk ->
  valid_datetime (now_save r) = true ->
  let w0 := mkWorld initial_state (file (fst (fetch_thread r w))) 0 in
  let out := get_sneaker_releases fromisoformat_other force now_load now w0 in
  snd out = Ok (JArr (map item_json (i :: l)))
  /\ releases (state (fst out)) = JArr (map item_json (i :: l))
  /\ last_fetch_time (state (fst out)) = Some (Naive (now_save r))
  /\ started (fst out) = 1%nat.
Proof.
  intros Hc Hw Hv.
  destruct (fetch_thread_file r w) as (Hf & _ & _).
  rewrite Hc, Hw in Hf. cbv zeta. rewrite Hf.
  assert (Hl : load_if_empty fromisoformat_other now_load
                 (mkWorld initial_state
                    (Document (document (i :: l) (now_save r))) 0)
               = (mkWorld (mkState (JArr (map item_json (i :: l)))
                                   (Some (Naive (now_save r))) false false true)
                          (Document (document (i :: l) (now_save r))) 0, Ok tt)).
  { unfold load_if_empty, MM.bind, MM.get_state, MM.read_file, MM.lift,
      MM.modify_state, MM.ret.
    cbn [state initial_state releases truthy negb file].
    rewrite (load_document fromisoformat_other (i :: l) (now_save r) now_load Hv).
    reflexivity. }
  rewrite (get_sneaker_releases_unfold _ force _ _ _ _ Hl). cbv zeta.
  unfold serve_cached. cbn [state first_run negb andb].
  rewrite andb_false_r. cbn. repeat split.
Qed.

End StoreMore.

Lemma load_unparseable_stamp_is_now_witness :
  load_sneaker_releases_from_file fromisoformat_strict noon
    (Document document_bad_stamp)
  = Ok (JArr [item_json (parse_sneaker_item elem_plain)], Some (Naive noon)).
Proof.
  apply (load_unparseable_stamp_is_now fromisoformat_strict noon
           bad_stamp_members
           (JArr [item_json (parse_sneaker_item elem_plain)])
           "yesterday" ValueError).
  - reflexivity.
  - reflexivity.
  - reflexivity.
  - discriminate.
  - reflexivity.
  - reflexivity.
Defined.

Lemma unparseable_stamp_serves_without_refresh_witness :
  let out := get_sneaker_releases fromisoformat_strict false noon noon
               world_bad_stamp in
  snd out = Ok (JArr [item_json (parse_sneaker_item elem_plain)])
  /\ started (fst out) = started world_bad_stamp
  /\ releases (state (fst out)) = JArr [item_json (parse_sneaker_item elem_plain)]
  /\ last_fetch_time (state (fst out)) = Some (Naive noon)
  /\ fetch_lock (state (fst out)) = fetch_lock (state world_bad_stamp).
Proof.
  apply (unparseable_stamp_serves_without_refresh fromisoformat_strict
           noon noon world_bad_stamp bad_stamp_members
           (JArr [item_json (parse_sneaker_item elem_plain)])
           "yesterday" ValueError).
  - reflexivity.
  - reflexivity.
  - reflexivity.
  - reflexivity.
  - reflexivity.
  - reflexivity.
  - reflexivity.
  - discriminate.
  - reflexivity.
  - reflexivity.
  - reflexivity.
Defined.

Lemma refreshed_file_matches_memory_witness :
  load_sneaker_releases_from_file fromisoformat_strict seven_pm
    (file (fst (fetch_thread refresh_one_page world_busy)))
  = Ok (releases (state (fst (fetch_thread refresh_one_page world_busy))),
        Some (Naive (now_save refresh_one_page))).
Proof.
  apply (refreshed_file_matches_memory fromisoformat_strict refresh_one_page
           world_busy seven_pm
           (parse_sneaker_item (elem_dated "2024-06-01")) []).
  - reflexivity.
  - reflexivity.
  - reflexivity.
Defined.

Lemma restart_serves_stored_snapshot_witness :
  let w0 := mkWorld initial_state
              (file (fst (fetch_thread refresh_one_page world_busy))) 0 in
  let out := get_sneaker_releases fromisoformat_strict false seven_pm seven_pm w0 in
  snd out = Ok (JArr (map item_json [parse_sneaker_item (elem_dated "2024-06-01")]))
  /\ releases (state (fst out))
     = JArr (map item_json [parse_sneaker_item (elem_dated "2024-06-01")])
  /\ last_fetch_time (state (fst out)) = Some (Naive (now_save refresh_one_page))
  /\ started (fst out) = 1%nat.
Proof.
  apply (restart_serves_stored_snapshot fromisoformat_strict refresh_one_page
           world_busy false seven_pm seven_pm
           (parse_sneaker_item (elem_dated "2024-06-01")) []).
  - reflexivity.
  - reflexivity.
  - reflexivity.
Defined.

(** ** The public operations *)

Section CoordinatorMore.

Variable fromisoformat_other : string -> result timestamp.
Variable strptime : string -> string -> option date.

(** X10.  After a load that did not raise, a forced call never serves
    from the cache: it starts a background task exactly when no refresh
    is in progress and the lock is free, never more than one, and it
    returns the held snapshot (or the empty list) either way. *)
Theorem forced_get_starts_refresh_iff (now_load now : datetime) (w w1 : World) :
  load_if_empty fromisoformat_other now_load w = (w1, Ok tt) ->
  let s := state w1 in
  let out := get_sneaker_releases fromisoformat_other true now_load now w in
  (started (fst out) = S (started w) <->
     fetch_in_progress s = false /\ fetch_lock s = false)
  /\ (started (fst out) = started w \/ started (fst out) = S (started w))
  /\ snd out = Ok (or_empty (releases s))
  /\ releases (state (fst out)) = releases s
  /\ last_fetch_time (state (fst out)) = last_fetch_time s.
Proof.
  intros Hl s out.
  pose proof (load_if_empty_frame fromisoformat_other now_load w) as F.
  cbv zeta in F. rewrite Hl in F. cbn [fst] in F.
  destruct F as (_ & _ & _ & _ & Hst).
  subst out. rewrite (get_sneaker_releases_unfold _ true now_load now w w1 Hl).
  cbv zeta. fold s. rewrite <- Hst. unfold serve_cached. cbn [negb andb].
  destruct (fetch_in_progress s), (fetch_lock s); cbn;
    (split; [split; [intros H; try lia; auto
                    | intros (? & ?); try discriminate; reflexivity] |]);
    repeat split; auto.
Qed.

(** X11.  [get_sneaker_releases] never returns [None]: what it returns
    is the empty list or a non-empty held value.  It never writes the
    file, and it leaves the first-run flag as it found it. *)
Theorem get_returns_a_list_and_keeps_file
    (force : bool) (now_load now : datetime) (w : World) :
  let out := get_sneaker_releases fromisoformat_other force now_load now w in
  match snd out with
  | Ok v => v = JArr [] \/ truthy v = true
  | Raise _ => True
  end
  /\ file (fst out) = file w
  /\ first_run (state (fst out)) = first_run (state w).
Proof.
  cbv zeta.
  split; [| split;
            [| apply get_sneaker_releases_keeps_first_run]].
  - destruct (load_if_empty fromisoformat_other now_load w) as [w1 [[] | e]] eqn:Hl.
    + rewrite (get_sneaker_releases_unfold _ force now_load now w w1 Hl). cbv zeta.
      assert (Hor : forall v, or_empty v = JArr [] \/ truthy (or_empty v) = true).
      { intros v. unfold or_empty. destruct (truthy v) eqn:Hv; auto. }
      unfold serve_cached.
      destruct (negb force && negb (first_run (state w1))
                && truthy (releases (state w1))) eqn:Hc.
      * apply andb_prop in Hc. destruct Hc as [_ Ht].
        destruct (last_fetch_time (state w1)) as [[t |] |]; cbn [sub_now Res.bind].
        -- destruct (_ <? _); [now right |]. destruct (_ || _); apply Hor.
        -- exact I.
        -- destruct (_ || _); apply Hor.
      * destruct (_ || _); apply Hor.
    + unfold get_sneaker_releases, MM.bind. rewrite Hl. exact I.
  - pose proof (load_if_empty_frame fromisoformat_other now_load w) as F.
    cbv zeta in F. destruct F as (_ & _ & _ & Hfile & _).
    destruct (load_if_empty fromisoformat_other now_load w) as [w1 [[] | e]] eqn:Hl;
      cbn [fst] in Hfile.
    + rewrite (get_sneaker_releases_unfold _ force now_load now w w1 Hl). cbv zeta.
      destruct (serve_cached force now (state w1)) as [[|] | e]; try exact Hfile.
      destruct (_ || _); exact Hfile.
    + unfold get_sneaker_releases, MM.bind. rewrite Hl. exact Hfile.
Qed.

(** The filter at the end of [get_upcoming_sneaker_releases] changes
    nothing: the world after the call is the one its first steps leave. *)
Lemma upcoming_world (days : Z) (clk : nat -> datetime) (w : World) :
  fst (get_upcoming_sneaker_releases fromisoformat_other strptime days clk w)
  = fst ((load_if_empty fromisoformat_other (clk 0%nat) ;;;
          stale <- should_fetch_new_data (clk 1%nat) ;;
          (if stale : bool then
             _ <- get_sneaker_releases fromisoformat_other false
                    (clk 2%nat) (clk 3%nat) ;;
             MM.ret tt
           else MM.ret tt))%M w).
Proof.
  unfold get_upcoming_sneaker_releases, MM.bind.
  destruct (load_if_empty fromisoformat_other (clk 0%nat) w) as [w1 [[] | e]];
    [| reflexivity].
  destruct (should_fetch_new_data (clk 1%nat) w1) as [wa [stale | e]];
    [| reflexivity].
  assert (Tail : forall wb : World,
             fst ((s <- MM.get_state ;;
                   if negb (truthy (releases s)) then MM.ret []
                   else
                     let today := date_of (clk 4%nat) in
                     end_date <- MM.lift (date_add_days today days) ;;
                     rs <- MM.lift (py_iter (releases s)) ;;
                     MM.lift (upcoming_loop strptime today end_date rs))%M wb)
             = wb).
  { intros wb. unfold MM.bind, MM.get_state, MM.lift, MM.ret.
    destruct (negb (truthy (releases (state wb)))); [reflexivity |].
    destruct (date_add_days _ days); [| reflexivity].
    destruct (py_iter _); [| reflexivity].
    destruct (upcoming_loop _ _ _ _); reflexivity. }
  unfold MM.bind in Tail.
  destruct stale.
  - destruct (get_sneaker_releases fromisoformat_other false
                (clk 2%nat) (clk 3%nat) wa) as [wb [v | e]]; [| reflexivity].
    unfold MM.ret at 1 2. apply Tail.
  - unfold MM.ret at 1 2. apply Tail.
Qed.

(** The number of threads started by [get_upcoming_sneaker_releases]
    when a snapshot is held. *)
Lemma upcoming_started (days : Z) (clk : nat -> datetime) (w : World) :
  truthy (releases (state w)) = true ->
  let s := state w in
  let inner :=
    if match last_fetch_time s with
       | Some (Naive t) =>
           dt_sub (clk 3%nat) t <? timedelta_hours FETCH_INTERVAL_HOURS
       | Some Aware => true
       | None => false
       end
    then started w
    else if fetch_in_progress s || fetch_lock s then started w
         else S (started w) in
  started (fst (get_upcoming_sneaker_releases fromisoformat_other strptime
                  days clk w))
  = if first_run s then inner
    else match last_fetch_time s with
         | Some (Naive t) =>
             if timedelta_hours FETCH_INTERVAL_HOURS <? dt_sub (clk 1%nat) t
             then inner else started w
         | Some Aware => started w
         | None => inner
         end.
Proof.
  intros Ht s inner. subst s. rewrite upcoming_world.
  unfold MM.bind at 1. rewrite (load_if_empty_held _ _ _ Ht).
  assert (G : forall s0 : State,
             releases s0 = releases (state w) ->
             last_fetch_time s0 = last_fetch_time (state w) ->
             fetch_in_progress s0 = fetch_in_progress (state w) ->
             fetch_lock s0 = fetch_lock (state w) -> first_run s0 = false ->
             started (fst (get_sneaker_releases fromisoformat_other false
                             (clk 2%nat) (clk 3%nat)
                             (mkWorld s0 (file w) (started w))))
             = inner).
  { intros s0 H1 H2 H3 H4 H5.
    assert (Ht0 : truthy (releases (state (mkWorld s0 (file w) (started w)))) = true)
      by (cbn; now rewrite H1).
    rewrite (get_sneaker_releases_unfold _ false _ _ _ _
               (load_if_empty_held _ _ _ Ht0)).
    cbv zeta. cbn [state file started]. unfold serve_cached.
    rewrite H1, H2, H3, H4, H5, Ht. cbn [negb andb]. subst inner.
    destruct (last_fetch_time (state w)) as [[t |] |]; cbn [sub_now Res.bind].
    - destruct (_ <? _); [reflexivity |]. destruct (_ || _); reflexivity.
    - reflexivity.
    - destruct (_ || _); reflexivity. }
  assert (Hfst : forall (c : M json) (w0 : World),
             started (fst ((let (w', r) := c w0 in
                            match r with
                            | Ok _ => MM.ret tt w'
                            | Raise e => (w', Raise e)
                            end) : World * result unit))
             = started (fst (c w0))).
  { intros c w0. destruct (c w0) as [w' [v | e]]; reflexivity. }
  clearbody inner.
  unfold should_fetch_new_data, MM.bind, MM.get_state, MM.modify_state,
    MM.lift, MM.ret.
  destruct (first_run (state w)) eqn:Hfr.
  - rewrite Hfst. apply (G (set_first_run false (state w))); reflexivity.
  - destruct (last_fetch_time (state w)) as [[t |] |] eqn:Hlft.
    + cbn [sub_now]. destruct (_ <? _).
      * rewrite Hfst. destruct w as [st f n]. apply (G st); auto.
      * reflexivity.
    + reflexivity.
    + rewrite Hfst. destruct w as [st f n]. apply (G st); auto.
Qed.

(** X12.  With a snapshot held and a naive timestamp (or none),
    [get_upcoming_sneaker_releases] starts a refresh exactly when no
    refresh is in progress, the lock is free, and either no timestamp
    is held, or the age has reached six hours at the test inside
    [get_sneaker_releases] and, outside a first run, had passed six
    hours at the test of [should_fetch_new_data].  So a first run over
    a snapshot younger than six hours starts no refresh. *)
Theorem upcoming_starts_refresh_iff
    (days : Z) (clk : nat -> datetime) (w : World) :
  truthy (releases (state w)) = true ->
  last_fetch_time (state w) <> Some Aware ->
  let s := state w in
  let out := get_upcoming_sneaker_releases fromisoformat_other strptime days clk w in
  (started (fst out) = S (started w) <->
     fetch_in_progress s = false /\ fetch_lock s = false
     /\ match last_fetch_time s with
        | None => True
        | Some Aware => False
        | Some (Naive t) =>
            (first_run s = true
             \/ timedelta_hours FETCH_INTERVAL_HOURS < dt_sub (clk 1%nat) t)
            /\ timedelta_hours FETCH_INTERVAL_HOURS <= dt_sub (clk 3%nat) t
        end)
  /\ (first_run s = true ->
      (exists t, last_fetch_time s = Some (Naive t)
                 /\ dt_sub (clk 3%nat) t < timedelta_hours FETCH_INTERVAL_HOURS) ->
      started (fst out) = started w).
Proof.
  intros Ht Hn s out. subst out s.
  rewrite (upcoming_started days clk w Ht). cbv zeta.
  destruct (first_run (state w)) eqn:Hfr;
    destruct (last_fetch_time (state w)) as [[t |] |] eqn:Hlft; try congruence;
    repeat match goal with
           | |- context [?a <? ?b] => destruct (Z.ltb_spec a b)
           end;
    destruct (fetch_in_progress (state w)), (fetch_lock (state w)); cbn [orb];
    (split;
     [split;
      [intros Hstart; try lia; repeat split; auto; lia
      | intros (? & ? & Hcond); try discriminate;
        try reflexivity; try lia;
        try (destruct Hcond as [[Hc | Hc] Hc']; try discriminate; lia)]
     | try discriminate;
       try (intros _ (t' & Ht' & Hlt); inversion Ht'; subst; try reflexivity; lia)]).
Qed.

(** X13.  Once its load has not raised, [get_upcoming_sneaker_releases]
    always leaves the first-run flag cleared, whether or not it goes on
    to start a refresh and whatever its filter then does. *)
Theorem upcoming_clears_first_run
    (days : Z) (clk : nat -> datetime) (w w1 : World) :
  load_if_empty fromisoformat_other (clk 0%nat) w = (w1, Ok tt) ->
  first_run (state (fst (get_upcoming_sneaker_releases fromisoformat_other
                           strptime days clk w))) = false.
Proof.
  intros Hl. rewrite upcoming_world. unfold MM.bind at 1. rewrite Hl.
  assert (Hfst : forall (c : M json) (w0 : World),
             first_run (state (fst ((let (w', r) := c w0 in
                                     match r with
                                     | Ok _ => MM.ret tt w'
                                     | Raise e => (w', Raise e)
                                     end) : World * result unit)))
             = first_run (state (fst (c w0)))).
  { intros c w0. destruct (c w0) as [w' [v | e]]; reflexivity. }
  unfold should_fetch_new_data, MM.bind, MM.get_state, MM.modify_state,
    MM.lift, MM.ret.
  destruct (first_run (state w1)) eqn:Hfr.
  - rewrite Hfst, get_sneaker_releases_keeps_first_run. reflexivity.
  - destruct (last_fetch_time (state w1)) as [[t |] |].
    + cbn [sub_now]. destruct (_ <? _).
      * rewrite Hfst, get_sneaker_releases_keeps_first_run. exact Hfr.
      * exact Hfr.
    + exact Hfr.
    + rewrite Hfst, get_sneaker_releases_keeps_first_run. exact Hfr.
Qed.

(** What [get_upcoming_sneaker_releases] returns over a held list of
    dicts. *)
Lemma upcoming_filter_result
    (days : Z) (clk : nat -> datetime) (w w1 : World)
    (items : list json) (end_date : date) :
  load_if_empty fromisoformat_other (clk 0%nat) w = (w1, Ok tt) ->
  releases (state w1) = JArr items ->
  forallb is_object items = true ->
  last_fetch_time (state w1) <> Some Aware ->
  date_add_days (date_of (clk 4%nat)) days = Ok end_date ->
  snd (get_upcoming_sneaker_releases fromisoformat_other strptime days clk w)
  = Ok (filter (wanted strptime (date_of (clk 4%nat)) end_date) items).
Proof.
  intros Hl Hrel Hobj Hn Hadd.
  assert (Hp : exists w2,
             (stale <- should_fetch_new_data (clk 1%nat) ;;
              (if stale : bool then
                 _ <- get_sneaker_releases fromisoformat_other false
                        (clk 2%nat) (clk 3%nat) ;;
                 MM.ret tt
               else MM.ret tt))%M w1 = (w2, Ok tt)
             /\ releases (state w2) = releases (state w1)).
  { destruct (truthy (releases (state w1))) eqn:Ht.
    - apply upcoming_prologue_held; assumption.
    - eapply upcoming_prologue_empty; eassumption. }
  destruct Hp as (w2 & Hp & Hkeep).
  unfold get_upcoming_sneaker_releases.
  unfold MM.bind at 1. rewrite Hl.
  unfold MM.bind at 1. unfold MM.bind at 1 in Hp.
  destruct (should_fetch_new_data (clk 1%nat) w1) as [w' [stale | e]];
    [| discriminate].
  unfold MM.bind at 1. rewrite Hp.
  unfold MM.bind, MM.get_state, MM.lift, MM.ret.
  rewrite Hkeep, Hrel.
  destruct items as [| i items]; [reflexivity |].
  cbn [truthy negb py_iter].
  rewrite Hadd. rewrite (upcoming_loop_objects _ _ _ _ Hobj). reflexivity.
Qed.

Lemma wanted_empty_window (today end_date : date) (release : json) :
  end_date < today -> wanted strptime today end_date release = false.
Proof.
  intros Hlt. unfold wanted.
  destruct (json_trending release); [| reflexivity]. cbn [andb].
  destruct (py_get release "release_date" (JStr "")) as [ds | e]; [| reflexivity].
  destruct (parse_date strptime ds) as [[d |] | e]; try reflexivity.
  destruct (Z.leb_spec today d), (Z.leb_spec d end_date); try reflexivity. lia.
Qed.

(** X14.  With a negative [days] (and [today + days] still a date) the
    window is empty and the call returns the empty list, whatever the
    held dicts are. *)
Theorem upcoming_negative_days_is_empty
    (days : Z) (clk : nat -> datetime) (w w1 : World) (items : list json) :
  load_if_empty fromisoformat_other (clk 0%nat) w = (w1, Ok tt) ->
  releases (state w1) = JArr items ->
  forallb is_object items = true ->
  last_fetch_time (state w1) <> Some Aware ->
  -999999999 <= days < 0 ->
  0 < date_of (clk 4%nat) + days ->
  date_of (clk 4%nat) <= MAXORDINAL ->
  snd (get_upcoming_sneaker_releases fromisoformat_other strptime days clk w)
  = Ok [].
Proof.
  intros Hl Hrel Hobj Hn Hdays Hpos Hmax.
  assert (Hadd : date_add_days (date_of (clk 4%nat)) days
                 = Ok (date_of (clk 4%nat) + days)).
  { unfold date_add_days.
    destruct (Z.leb_spec (Z.abs days) 999999999); [| lia].
    destruct (Z.ltb_spec 0 (date_of (clk 4%nat) + days)); [| lia].
    destruct (Z.leb_spec (date_of (clk 4%nat) + days) MAXORDINAL); [| lia].
    reflexivity. }
  rewrite (upcoming_filter_result days clk w w1 items _ Hl Hrel Hobj Hn Hadd).
  f_equal. assert (Hlt : date_of (clk 4%nat) + days < date_of (clk 4%nat)) by lia.
  clear - Hlt. induction items as [| i items IH]; [reflexivity |].
  cbn [filter]. rewrite wanted_empty_window by exact Hlt. exact IH.
Qed.

(** X15.  With nothing held after the load (no file, or a file holding
    no releases) the call returns the empty list before it ever looks
    at [days]: no value of [days] makes it raise. *)
Theorem upcoming_nothing_held_is_empty
    (days : Z) (clk : nat -> datetime) (w w1 : World) :
  load_if_empty fromisoformat_other (clk 0%nat) w = (w1, Ok tt) ->
  truthy (releases (state w1)) = false ->
  last_fetch_time (state w1) <> Some Aware ->
  snd (get_upcoming_sneaker_releases fromisoformat_other strptime days clk w)
  = Ok [].
Proof.
  intros Hl Hf Hn.
  destruct (upcoming_prologue_empty _ clk w w1 Hl Hf Hn) as (w2 & Hp & Hkeep).
  unfold get_upcoming_sneaker_releases.
  unfold MM.bind at 1. rewrite Hl.
  unfold MM.bind at 1. unfold MM.bind at 1 in Hp.
  destruct (should_fetch_new_data (clk 1%nat) w1) as [w' [stale | e]];
    [| discriminate].
  unfold MM.bind at 1. rewrite Hp.
  unfold MM.bind, MM.get_state, MM.lift, MM.ret.
  rewrite Hkeep, Hf. reflexivity.
Qed.

End CoordinatorMore.

Lemma forced_get_starts_refresh_iff_witness :
  let s := state world_busy in
  let out := get_sneaker_releases fromisoformat_strict true noon noon world_busy in
  (started (fst out) = S (started world_busy) <->
     fetch_in_progress s = false /\ fetch_lock s = false)
  /\ (started (fst out) = started world_busy
      \/ started (fst out) = S (started world_busy))
  /\ snd out = Ok (or_empty (releases s))
  /\ releases (state (fst out)) = releases s
  /\ last_fetch_time (state (fst out)) = last_fetch_time s.
Proof.
  apply (forced_get_starts_refresh_iff fromisoformat_strict noon noon
           world_busy world_busy).
  reflexivity.
Defined.

Lemma upcoming_starts_refresh_iff_witness :
  let s := state world_idle in
  let clk := fun n : nat => match n with 3%nat => seven_pm | _ => noon end in
  let out := get_upcoming_sneaker_releases fromisoformat_strict strptime_ymd 7
               clk world_idle in
  (started (fst out) = S (started world_idle) <->
     fetch_in_progress s = false /\ fetch_lock s = false
     /\ match last_fetch_time s with
        | None => True
        | Some Aware => False
        | Some (Naive t) =>
            (first_run s = true
             \/ timedelta_hours FETCH_INTERVAL_HOURS < dt_sub (clk 1%nat) t)
            /\ timedelta_hours FETCH_INTERVAL_HOURS <= dt_sub (clk 3%nat) t
        end)
  /\ (first_run s = true ->
      (exists t, last_fetch_time s = Some (Naive t)
                 /\ dt_sub (clk 3%nat) t < timedelta_hours FETCH_INTERVAL_HOURS) ->
      started (fst out) = started world_idle).
Proof.
  intros s clk.
  apply (upcoming_starts_refresh_iff fromisoformat_strict strptime_ymd 7 clk
           world_idle).
  - reflexivity.
  - discriminate.
Defined.

Lemma upcoming_clears_first_run_witness :
  first_run (state (fst (get_upcoming_sneaker_releases fromisoformat_strict
                           strptime_ymd 7 (fun _ => noon) world_fresh))) = false.
Proof.
  apply (upcoming_clears_first_run fromisoformat_strict strptime_ymd 7
           (fun _ => noon) world_fresh world_fresh).
  reflexivity.
Defined.

Lemma upcoming_negative_days_is_empty_witness :
  snd (get_upcoming_sneaker_releases fromisoformat_strict strptime_ymd (-3)
         (fun _ => noon) world_idle)
  = Ok [].
Proof.
  apply (upcoming_negative_days_is_empty fromisoformat_strict strptime_ymd (-3)
           (fun _ => noon) world_idle world_idle (map item_json june_items)).
  - reflexivity.
  - reflexivity.
  - reflexivity.
  - discriminate.
  - lia.
  - reflexivity.
  - vm_compute. discriminate.
Defined.

Lemma upcoming_nothing_held_is_empty_witness :
  snd (get_upcoming_sneaker_releases fromisoformat_strict strptime_ymd
         10000000 (fun _ => noon) world_empty)
  = Ok [].
Proof.
  apply (upcoming_nothing_held_is_empty fromisoformat_strict strptime_ymd
           10000000 (fun _ => noon) world_empty world_empty).
  - reflexivity.
  - reflexivity.
  - discriminate.
Defined.

(** ** Formatting and date parsing *)

(** X16.  For an item as the crawl builds it, [format_sneaker_release]
    returns the link text [[name](link)] when the item has a link, with
    the text [None] for a missing name, and otherwise returns the
    stored name itself, which is [None] when the name is missing: the
    placeholder ['Unknown'] is never used for a crawled item. *)
Theorem format_crawled_item (str_container : json -> string) (e : Elem) :
  format_sneaker_release str_container (item_json (parse_sneaker_item e))
  = Ok (match link (parse_sneaker_item e) with
        | Some l =>
            JStr ("[" ++ match name_text e with Some n => n | None => "None" end
                      ++ "](" ++ l ++ ")")
        | None => opt_str (name_text e)
        end)
  /\ (link (parse_sneaker_item e) = None <->
      href e = None \/ href e = Some "")
  /\ forall l, link (parse_sneaker_item e) = Some l ->
               exists h, href e = Some h
                         /\ l = "https://www.soleretriever.com" ++ h.
Proof.
  unfold format_sneaker_release, parse_sneaker_item, item_json.
  cbn [py_get assoc String.eqb Ascii.eqb Bool.eqb Res.bind
       name link release_date price sku is_trending].
  destruct (href e) as [h |].
  - destruct (String.eqb_spec h "") as [-> | Hne]; cbn [negb opt_str truthy].
    + split; [reflexivity |]. split; [split; auto |]. discriminate.
    + split.
      * destruct (name_text e); reflexivity.
      * split; [split; [discriminate | intros [H | H]; congruence] |].
        intros l Hl. inversion Hl. exists h. auto.
  - cbn [opt_str truthy]. split; [reflexivity |].
    split; [split; auto |]. discriminate.
Qed.

Section DateFormats.

Variable strptime : string -> string -> option date.

Lemma first_format_some (s : string) (fmts : list string) (d : date) :
  first_format strptime s fmts = Some d <->
  exists pre fmt post,
    fmts = (pre ++ fmt :: post)%list
    /\ strptime s fmt = Some d
    /\ Forall (fun f => strptime s f = None) pre.
Proof.
  induction fmts as [| f fmts IH]; cbn.
  - split; [discriminate |]. intros (pre & fmt & post & H & _).
    destruct pre; discriminate.
  - destruct (strptime s f) as [d' |] eqn:Hf.
    + split.
      * intros H. inversion H; subst. exists [], f, fmts. repeat split; auto.
      * intros (pre & fmt & post & H & Hd & Hpre).
        destruct pre as [| p pre]; cbn in H; inversion H; subst.
        -- congruence.
        -- inversion Hpre; subst. congruence.
    + rewrite IH. split.
      * intros (pre & fmt & post & H & Hd & Hpre).
        exists (f :: pre), fmt, post. subst. repeat split; auto.
      * intros (pre & fmt & post & H & Hd & Hpre).
        destruct pre as [| p pre]; cbn in H; inversion H; subst.
        -- congruence.
        -- inversion Hpre; subst. exists pre, fmt, post. auto.
Qed.

Lemma first_format_none (s : string) (fmts : list string) :
  first_format strptime s fmts = None <->
  Forall (fun f => strptime s f = None) fmts.
Proof.
  induction fmts as [| f fmts IH]; cbn.
  - split; auto.
  - destruct (strptime s f) eqn:Hf.
    + split; [discriminate |]. intros H. inversion H; subst. congruence.
    + rewrite IH. split; [intros H; constructor; auto |].
      intros H. now inversion H.
Qed.

(** X17.  On a non-empty text [parse_date] never raises; it returns the
    date read by the first format of [DATE_FORMATS], in their order,
    that accepts the text (so a text accepted by both slash formats is
    read month first), and [None] exactly when every format rejects
    it. *)
Theorem parse_date_first_format (s : string) :
  s <> "" ->
  (forall d,
     parse_date strptime (JStr s) = Ok (Some d) <->
     exists pre fmt post,
       DATE_FORMATS = (pre ++ fmt :: post)%list
       /\ strptime s fmt = Some d
       /\ Forall (fun f => strptime s f = None) pre)
  /\ (parse_date strptime (JStr s) = Ok None <->
      Forall (fun f => strptime s f = None) DATE_FORMATS)
  /\ (forall d,
        strptime s "%B %d, %Y" = None -> strptime s "%b %d, %Y" = None ->
        strptime s "%Y-%m-%d" = None -> strptime s "%m/%d/%Y" = Some d ->
        parse_date strptime (JStr s) = Ok (Some d)).
Proof.
  intros Hs.
  assert (E : parse_date strptime (JStr s) = Ok (first_format strptime s DATE_FORMATS)).
  { unfold parse_date. cbn [truthy].
    destruct (String.eqb_spec s ""); [contradiction | reflexivity]. }
  rewrite E. split; [| split].
  - intros d. rewrite <- first_format_some. split; congruence.
  - rewrite <- first_format_none. split; congruence.
  - intros d H1 H2 H3 H4. unfold DATE_FORMATS. cbn [first_format].
    now rewrite H1, H2, H3, H4.
Qed.

End DateFormats.

Lemma parse_date_first_format_witness :
  (forall d,
     parse_date strptime_ymd (JStr "2024-06-01") = Ok (Some d) <->
     exists pre fmt post,
       DATE_FORMATS = (pre ++ fmt :: post)%list
       /\ strptime_ymd "2024-06-01" fmt = Some d
       /\ Forall (fun f => strptime_ymd "2024-06-01" f = None) pre)
  /\ (parse_date strptime_ymd (JStr "2024-06-01") = Ok None <->
      Forall (fun f => strptime_ymd "2024-06-01" f = None) DATE_FORMATS)
  /\ (forall d,
        strptime_ymd "2024-06-01" "%B %d, %Y" = None ->
        strptime_ymd "2024-06-01" "%b %d, %Y" = None ->
        strptime_ymd "2024-06-01" "%Y-%m-%d" = None ->
        strptime_ymd "2024-06-01" "%m/%d/%Y" = Some d ->
        parse_date strptime_ymd (JStr "2024-06-01") = Ok (Some d)).
Proof.
  apply (parse_date_first_format strptime_ymd "2024-06-01"). discriminate.
Defined.

(** ** The in-progress flag *)

Section ThreadMore.

Variable fromisoformat_other : string -> result timestamp.

(** A caller never writes the in-progress flag. *)
Lemma caller_step_flag (c : Caller) (w w' : World) (pc' : caller_pc) :
  caller_step fromisoformat_other c w = (pc', w') ->
  fetch_in_progress (state w') = fetch_in_progress (state w).
Proof.
  unfold caller_step. destruct (cpc c); intros H.
  - pose proof (load_if_empty_frame fromisoformat_other (now_load c) w) as F.
    cbv zeta in F. destruct F as (_ & Hp & _).
    destruct (load_if_empty fromisoformat_other (now_load c) w) as [w1 [[] | e]];
      inversion H; subst; exact Hp.
  - destruct (serve_cached _ _ _) as [[|] | e]; inversion H; reflexivity.
  - inversion H; reflexivity.
  - destruct (fetch_in_progress (state w)) eqn:Hp; inversion H; subst;
      congruence.
  - unfold lock_acquire in H.
    destruct (fetch_lock (state w)); inversion H; reflexivity.
  - inversion H; reflexivity.
  - inversion H; reflexivity.
  - inversion H; reflexivity.
  - inversion H; reflexivity.
Qed.

(** What a task's step does to the flag and to its own place. *)
Lemma task_step_flag (r : Refresh) (pc pc' : task_pc) (w w' : World) :
  task_step r pc w = (pc', w') ->
  match pc with
  | TStart => flag_owner (r, pc') = true /\ fetch_in_progress (state w') = true
  | TFinally => flag_owner (r, pc') = false /\ fetch_in_progress (state w') = false
  | _ => flag_owner (r, pc') = flag_owner (r, pc)
         /\ fetch_in_progress (state w') = fetch_in_progress (state w)
  end.
Proof.
  destruct pc; cbn [task_step]; intros H.
  - inversion H; subst. split; reflexivity.
  - destruct (fetch_sneaker_data (crawl r)) as [[| i l] | e];
      inversion H; subst; split; reflexivity.
  - rewrite save_outcome in H.
    destruct (write r); inversion H; subst; split; reflexivity.
  - inversion H; subst. split; reflexivity.
  - inversion H; subst. split; reflexivity.
  - inversion H; subst. split; reflexivity.
  - inversion H; subst. split; [reflexivity |].
    unfold lock_release. destruct (fetch_lock (state w)); reflexivity.
  - inversion H; subst. split; reflexivity.
Qed.

Lemma flag_owner_active (t : Refresh * task_pc) :
  flag_owner t = true -> active t = true.
Proof. unfold flag_owner, active. destruct (snd t); congruence. Qed.

Lemma owners_le_active (ts : list (Refresh * task_pc)) :
  (List.length (filter flag_owner ts) <= List.length (filter active ts))%nat.
Proof.
  induction ts as [| t ts IH]; [cbn; lia |].
  cbn [filter]. destruct (flag_owner t) eqn:Ho.
  - rewrite (flag_owner_active t Ho). cbn. lia.
  - destruct (active t); cbn; lia.
Qed.

(** The two invariants together: the lock counts the threads entitled
    to it, and the flag counts the tasks between setting and clearing
    it. *)
Lemma step_keeps_flag (cfg cfg' : Config) :
  step fromisoformat_other cfg cfg' ->
  holders cfg = lock_count (world cfg) ->
  List.length (filter flag_owner (tasks cfg)) = flag_count (world cfg) ->
  List.length (filter flag_owner (tasks cfg')) = flag_count (world cfg').
Proof.
  unfold flag_count. intros Hstep Hold. step_cases Hstep;
    cbn [world callers tasks]; intros Inv.
  - exact Inv.
  - now rewrite (caller_step_flag c w w' pc' Hs).
  - rewrite (caller_step_flag c w w' pc' Hs).
    rewrite filter_app, length_app. cbn. lia.
  - pose proof (lock_count_le_1 w) as Hle.
    unfold holders, active_crawls in Hold. cbn [world callers tasks] in Hold.
    rewrite count_split in Hold, Inv |- *.
    pose proof (owners_le_active ts1) as L1.
    pose proof (owners_le_active ts2) as L2.
    pose proof (task_step_flag r pc pc' w w' Hs) as Ht.
    destruct pc; cbn [flag_owner active snd] in *; destruct Ht as [Ho Hf];
      rewrite ?Hf; try (rewrite Ho; exact Inv).
    + rewrite Ho. lia.
    + rewrite Ho. lia.
Qed.

(** X18.  In a process that starts with the lock free and the flag
    clear, whenever [fetch_in_progress] is set the lock is held and
    exactly one background task is active, in every interleaving of
    callers and tasks. *)
Theorem in_progress_implies_lock_held (cfg0 cfg : Config) :
  initial cfg0 ->
  fetch_in_progress (state (world cfg0)) = false ->
  steps fromisoformat_other cfg0 cfg ->
  fetch_in_progress (state (world cfg)) = true ->
  fetch_lock (state (world cfg)) = true /\ active_crawls cfg = 1%nat.
Proof.
  intros Hi Hflag Hsteps.
  assert (Inv : holders cfg = lock_count (world cfg)
                /\ List.length (filter flag_owner (tasks cfg))
                   = flag_count (world cfg)).
  { induction Hsteps as [cfg | cfg1 cfg2 cfg3 Hs12 IH Hstep].
    - destruct Hi as (Hfree & Hcs & Hts).
      unfold holders, active_crawls, lock_count, flag_count.
      now rewrite Hcs, Hts, Hfree, Hflag.
    - destruct (IH Hi Hflag) as [I1 I2]. split.
      + eapply step_keeps_holders; eauto.
      + eapply step_keeps_flag; eauto. }
  destruct Inv as [I1 I2]. intros Hp.
  unfold flag_count in I2. rewrite Hp in I2.
  pose proof (owners_le_active (tasks cfg)) as Hle.
  pose proof (lock_count_le_1 (world cfg)) as Hl1.
  unfold holders, active_crawls, lock_count in *.
  destruct (fetch_lock (state (world cfg))); [split; [reflexivity | lia] | lia].
Qed.

End ThreadMore.

Lemma in_progress_implies_lock_held_witness :
  fetch_lock
    (state (world (mkConfig
       (mkWorld (mkState (JArr (map item_json june_items)) (Some (Naive noon))
                         true true false) Missing 1)
       [at_pc first_caller AtReturn]
       [(refresh_one_page, TCrawl)]))) = true
  /\ active_crawls (mkConfig
       (mkWorld (mkState (JArr (map item_json june_items)) (Some (Naive noon))
                         true true false) Missing 1)
       [at_pc first_caller AtReturn]
       [(refresh_one_page, TCrawl)]) = 1%nat.
Proof.
  apply (in_progress_implies_lock_held fromisoformat_strict config_start).
  - repeat split.
  - reflexivity.
  - eapply steps_cons.
    { apply (step_arrive fromisoformat_strict world_idle [] [] true noon seven_pm). }
    do 4 (eapply steps_cons;
          [eapply (step_caller fromisoformat_strict _ [] _ [] []);
           [| reflexivity]; discriminate |]).
    eapply steps_cons.
    { eapply (step_spawn fromisoformat_strict _ [] _ [] [] _ _ refresh_one_page);
        reflexivity. }
    eapply steps_cons.
    { eapply (step_task fromisoformat_strict _ _ [] refresh_one_page TStart []);
        reflexivity. }
    apply steps_refl.
  - reflexivity.
Defined.
